(** * kda-module-fetcher: a shallow embedding of [fetch_namespace_modules.py]

    The script renders a template, calls the external [kda] tool twice, parses
    the JSON it prints and writes one [.pact] file per module.  The first part
    of this file embeds the script function by function; the second part
    proves the properties of its specification. *)

From Stdlib Require Import ZArith NArith List Ascii String Lia.
From Stdlib Require Import Floats.SpecFloat.
From stdpp Require Import gmap list.

#[local] Set Warnings "-register-all,-clear-no-such-hyp".

(** * Part I: the program *)

(** ** Python text

    A Python [str] is a sequence of Unicode code points; a code point is a
    natural number.  [str] reads an ASCII literal as such a sequence. *)

Abbreviation pystr := (list N).

Definition str (s : string) : pystr := map N_of_ascii (list_ascii_of_string s).

Definition lbrace : N := 123%N.
Definition rbrace : N := 125%N.
Definition dot : N := 46%N.
Definition slash : N := 47%N.
Definition dquote : N := 34%N.
Definition open3 : pystr := [lbrace; lbrace; lbrace].
Definition close3 : pystr := [rbrace; rbrace; rbrace].

(** [s.startswith(p)], returning what follows the prefix. *)
Fixpoint strip_prefix (p s : pystr) : option pystr :=
  match p, s with
  | [], _ => Some s
  | a :: p', b :: s' => if N.eqb a b then strip_prefix p' s' else None
  | _ :: _, [] => None
  end.

(** [needle in s] for two strings: the substring test. *)
Fixpoint is_substring (needle s : pystr) : bool :=
  match strip_prefix needle s with
  | Some _ => true
  | None => match s with [] => false | _ :: s' => is_substring needle s' end
  end.

Definition starts_with (c : N) (s : pystr) : bool :=
  match s with [] => false | a :: _ => N.eqb a c end.

Fixpoint ends_with (c : N) (s : pystr) : bool :=
  match s with
  | [] => false
  | [a] => N.eqb a c
  | _ :: s' => ends_with c s'
  end.

(** [s.rsplit(sep, 1)] when [sep] occurs in [s]: the text before and after
    the last occurrence; [None] when [sep] does not occur. *)
Fixpoint rsplit1 (sep : N) (s : pystr) : option (pystr * pystr) :=
  match s with
  | [] => None
  | c :: s' =>
      match rsplit1 sep s' with
      | Some (a, b) => Some (c :: a, b)
      | None => if N.eqb c sep then Some ([], s') else None
      end
  end.

(** [os.path.join(a, b)] of [posixpath]: an absolute [b] discards [a]; no
    separator is added after an empty [a] or one that ends with a slash. *)
Definition os_path_join (a b : pystr) : pystr :=
  if starts_with slash b then b
  else if match a with [] => true | _ => ends_with slash a end then a ++ b
  else a ++ slash :: b.

(** What [os.path.join(a, b)] puts in front of a relative [b]. *)
Definition dir_prefix (a : pystr) : pystr :=
  if match a with [] => true | _ => ends_with slash a end then a
  else a ++ [slash].

(** ** 4.1 Template renderer: [substitute_placeholders] *)

(** [\w] on a [str] pattern is Unicode aware.  On ASCII it is [[a-zA-Z0-9_]];
    beyond ASCII it consults the interpreter's Unicode database, which is an
    interface of the runtime. *)
Class UnicodeDB := unicode_word : N -> bool.

Definition ascii_word (c : N) : bool :=
  (((48 <=? c) && (c <=? 57)) || ((65 <=? c) && (c <=? 90))
  || (c =? 95) || ((97 <=? c) && (c <=? 122)))%N.

Definition is_word {db : UnicodeDB} (c : N) : bool :=
  if (c <? 128)%N then ascii_word c else unicode_word c.

(** The tail [(\w+)\}\}\}] of the pattern, matched at the head of [s]: the
    group is greedy, so a longer run of word characters is tried first and
    the matcher backs off one character at a time.  The result is the text of
    group 1 and the text after the match. *)
Fixpoint word_group_then_close {db : UnicodeDB} (s : pystr)
    : option (pystr * pystr) :=
  match s with
  | [] => None
  | c :: s' =>
      if is_word c then
        match word_group_then_close s' with
        | Some (k, r) => Some (c :: k, r)
        | None =>
            match strip_prefix close3 s' with
            | Some r => Some ([c], r)
            | None => None
            end
        end
      else None
  end.

(** [pattern.match] at the head of [s] for [r"\{\{\{(\w+)\}\}\}"]. *)
Definition match_at {db : UnicodeDB} (s : pystr) : option (pystr * pystr) :=
  match strip_prefix open3 s with
  | Some s' => word_group_then_close s'
  | None => None
  end.

(** The text [{{{key}}}]; for a match it is [match.group(0)]. *)
Definition placeholder (key : pystr) : pystr := open3 ++ key ++ close3.

(** The inner function [replacer]: [substitutions.get(key, match.group(0))]. *)
Definition replacer (substitutions : gmap pystr pystr) (key : pystr) : pystr :=
  default (placeholder key) (substitutions !! key).

(** [pattern.sub(replacer, text)]: scan from the left; where the pattern
    matches, emit the replacement and resume after the match, otherwise copy
    one character.  Every step consumes at least one character, so
    [length text] steps are enough ([sub_loop_enough] below). *)
Fixpoint sub_loop {db : UnicodeDB} (fuel : nat)
    (substitutions : gmap pystr pystr) (text : pystr) : pystr :=
  match fuel with
  | O => []
  | S fuel' =>
      match match_at text with
      | Some (key, rest) =>
          replacer substitutions key ++ sub_loop fuel' substitutions rest
      | None =>
          match text with
          | [] => []
          | c :: text' => c :: sub_loop fuel' substitutions text'
          end
      end
  end.

Definition substitute_placeholders {db : UnicodeDB} (template_content : pystr)
    (substitutions : gmap pystr pystr) : pystr :=
  sub_loop (S (length template_content)) substitutions template_content.

(** *** Vocabulary of the specification *)

(** A key made of one or more word characters. *)
Definition word_key {db : UnicodeDB} (key : pystr) : bool :=
  match key with [] => false | _ => forallb is_word key end.

(** A key with a character outside the word class. *)
Definition has_other_char {db : UnicodeDB} (key : pystr) : bool :=
  existsb (fun c => negb (is_word c)) key.

(** A key that does not itself contain the delimiter characters. *)
Definition brace_free (key : pystr) : bool :=
  forallb (fun c => negb (c =? lbrace)%N && negb (c =? rbrace)%N) key.

(** A text in which no placeholder with a word key occurs. *)
Definition placeholder_free {db : UnicodeDB} (text : pystr) : Prop :=
  forall pre key post,
    word_key key = true -> text <> pre ++ placeholder key ++ post.

(** [pattern.search(text) is not None] *)
Fixpoint pattern_search {db : UnicodeDB} (text : pystr) : bool :=
  match match_at text with
  | Some _ => true
  | None => match text with [] => false | _ :: text' => pattern_search text' end
  end.

(** ** Values, exceptions and the world *)

(** What [json.loads] returns: [None], [bool], [int], [float], [str], [list]
    and [dict] (whose keys are strings). *)
Inductive json :=
  | JNull
  | JBool (b : bool)
  | JInt (z : Z)
  | JFloat (f : spec_float)
  | JStr (s : pystr)
  | JList (l : list json)
  | JObj (m : gmap pystr json).

(** The exceptions the script can meet.  All of them derive from
    [Exception]; [SystemExit] does not and is the [Exit] result below. *)
Inductive exn :=
  | KeyError (key : pystr)
  | TypeError
  | AttributeError
  | ValueError
  | JSONDecodeError
  | RecursionError
  | FileNotFoundError
  | FileExistsError
  | IsADirectoryError
  | PermissionError
  | OSError.

(** How a computation ends: with a value, with a raised exception, or with
    [sys.exit(code)]. *)
Inductive result (A : Type) :=
  | Ok (a : A)
  | Raise (e : exn)
  | Exit (code : Z).
Arguments Ok {A} a.
Arguments Raise {A} e.
Arguments Exit {A} code.

(** What the script prints to [sys.stderr]: one message per call of [print],
    by the statement that prints it and the values interpolated into the
    f-string.  A message can hold more than one line: five of the f-strings
    have a line break of their own before the text of the exception. *)
Inductive message :=
  | ErrGenerateFailed (tool_stderr : pystr)
  | ErrJsonNotCreated
  | ErrLocalFailed (tool_stderr : pystr)
  | ErrParseJson
  | ErrUrlNotFound (network_url : pystr)
  | ErrExpectedList
  | WarnMissingKey (e : exn)
  | WarnDataNotList
  | WarnMissingNameOrCode
  | ErrMakeDirectory (namespace : json) (e : exn)
  | ErrWriteFile (filename : pystr) (e : exn)
  | ErrTemplateMissing (template_path : pystr)
  | ErrReadTemplate (e : exn)
  | ErrWriteSubstituted (e : exn)
  | WarnCleanup (e : exn).

(** The file system, as far as the script can observe it.  A file or a
    directory is identified by the text of its path; the hierarchy of
    directories is not tracked (the script creates a namespace directory
    before it writes below it).  [fs_denied] holds the paths on which the
    operating system refuses to create, open or unlink.  The operations below
    fail for these reasons and for a missing or mistaken path; a failure that
    depends on the locale (a text that cannot be encoded) is not modelled.

    Two limits follow.  Two texts that name one file (a doubled slash, a
    component [.] or [..], names that differ by case on a file system that
    folds it) are two files here; and opening a file below a directory that
    is not there succeeds here.  A property that needs two paths to be two
    files, or a file to be opened, therefore says so among its hypotheses:
    by leaf names without a slash, which put the file into the directory
    that was just created under the name given, and by the success of the
    operation itself. *)
Record filesystem := mk_fs {
  fs_dirs : gset pystr;
  fs_files : gmap pystr pystr;
  fs_denied : gset pystr
}.

Record world := mk_world {
  w_cwd : pystr;
  w_fs : filesystem;
  w_stderr : list message
}.

Definition set_fs (w : world) (fs : filesystem) : world :=
  mk_world (w_cwd w) fs (w_stderr w).

(** Statements run in a world and may end it by an exception or an exit. *)
Definition Py (A : Type) : Type := world -> world * result A.

#[global] Instance Py_ret : MRet Py := fun A a w => (w, Ok a).

#[global] Instance Py_bind : MBind Py := fun A B f m w =>
  match m w with
  | (w', Ok a) => f a w'
  | (w', Raise e) => (w', Raise e)
  | (w', Exit code) => (w', Exit code)
  end.

Definition lift {A} (r : result A) : Py A := fun w => (w, r).

Definition sys_exit {A} (code : Z) : Py A := fun w => (w, Exit code).

(** The world after one more line on the error stream. *)
Definition print_line (msg : message) (w : world) : world :=
  mk_world (w_cwd w) (w_fs w) (w_stderr w ++ [msg]).

(** [print(..., file=sys.stderr)] *)
Definition print_stderr (msg : message) : Py unit :=
  fun w => (print_line msg w, Ok tt).

(** [try: body except <catches> as e: handler e] *)
Definition try_except {A} (body : Py A) (catches : exn -> bool)
    (handler : exn -> Py A) : Py A := fun w =>
  match body w with
  | (w', Raise e) => if catches e then handler e w' else (w', Raise e)
  | other => other
  end.

(** [except Exception] *)
Definition any_exception (e : exn) : bool := true.

(** [except KeyError] *)
Definition is_KeyError (e : exn) : bool :=
  match e with KeyError _ => true | _ => false end.

(** [except json.JSONDecodeError] *)
Definition is_JSONDecodeError (e : exn) : bool :=
  match e with JSONDecodeError => true | _ => false end.

(** The end of a call into the runtime that either raises or returns. *)
Definition raised_or_returned {A} (outcome : exn + A) : result A :=
  match outcome with
  | inl e => Raise e
  | inr a => Ok a
  end.

(** [if cond: stmt] *)
Definition when (cond : bool) (stmt : Py unit) : Py unit :=
  if cond then stmt else mret tt.

(** [for x in l: body x] *)
Fixpoint for_each {A} (l : list A) (body : A -> Py unit) : Py unit :=
  match l with
  | [] => mret tt
  | x :: l' => body x ;; for_each l' body
  end.

(** The exit status of the process when the script ends with [r]: an
    exception nobody caught prints a traceback and gives status 1. *)
Definition exit_status {A} (r : result A) : Z :=
  match r with
  | Ok _ => 0
  | Raise _ => 1
  | Exit code => code
  end.

(** *** Operations on values *)

(** [bool(v)] *)
Definition py_truthy (v : json) : bool :=
  match v with
  | JNull => false
  | JBool b => b
  | JInt z => negb (z =? 0)%Z
  | JFloat f => match f with S754_zero _ => false | _ => true end
  | JStr s => match s with [] => false | _ => true end
  | JList l => match l with [] => false | _ => true end
  | JObj m => negb (Nat.eqb (size m) 0)
  end.

(** [needle in container], for a string [needle] *)
Definition py_in (needle : pystr) (container : json) : result bool :=
  match container with
  | JObj m => Ok (bool_decide (is_Some (m !! needle)))
  | JList l =>
      Ok (existsb (fun x => match x with
                            | JStr s => bool_decide (s = needle)
                            | _ => false
                            end) l)
  | JStr s => Ok (is_substring needle s)
  | _ => Raise TypeError
  end.

(** [v[key]], for a string [key] *)
Definition subscript (v : json) (key : pystr) : result json :=
  match v with
  | JObj m => match m !! key with
              | Some x => Ok x
              | None => Raise (KeyError key)
              end
  | _ => Raise TypeError
  end.

(** [v.get(key)] *)
Definition dict_get (v : json) (key : pystr) : result json :=
  match v with
  | JObj m => Ok (default JNull (m !! key))
  | _ => Raise AttributeError
  end.

(** *** Operations on the file system *)

Definition os_getcwd : Py pystr := fun w => (w, Ok (w_cwd w)).

(** [os.path.isfile(path)] *)
Definition os_path_isfile (path : pystr) : Py bool := fun w =>
  (w, Ok (bool_decide (is_Some (fs_files (w_fs w) !! path)))).

(** [os.makedirs(name, exist_ok=exist_ok)] *)
Definition os_makedirs (name : json) (exist_ok : bool) : Py unit := fun w =>
  let fs := w_fs w in
  match name with
  | JStr p =>
      if bool_decide (p = []) then (w, Raise FileNotFoundError)
      else if bool_decide (p ∈ fs_dirs fs)
      then (w, if exist_ok then Ok tt else Raise FileExistsError)
      else if bool_decide (is_Some (fs_files fs !! p))
      then (w, Raise FileExistsError)
      else if bool_decide (p ∈ fs_denied fs) then (w, Raise PermissionError)
      else (set_fs w (mk_fs ({[p]} ∪ fs_dirs fs) (fs_files fs) (fs_denied fs)),
            Ok tt)
  | _ => (w, Raise TypeError)
  end.

(** [with open(filename, "w") as f: f.write(content)]: opening creates or
    truncates the file; writing anything but a [str] raises. *)
Definition write_file (filename : pystr) (content : json) : Py unit := fun w =>
  let fs := w_fs w in
  if bool_decide (filename = []) then (w, Raise FileNotFoundError)
  else if bool_decide (filename ∈ fs_dirs fs) then (w, Raise IsADirectoryError)
  else if bool_decide (filename ∈ fs_denied fs) then (w, Raise PermissionError)
  else
    match content with
    | JStr text =>
        (set_fs w (mk_fs (fs_dirs fs) (<[filename := text]> (fs_files fs))
                         (fs_denied fs)), Ok tt)
    | _ =>
        (set_fs w (mk_fs (fs_dirs fs) (<[filename := []]> (fs_files fs))
                         (fs_denied fs)), Raise TypeError)
    end.

(** [with open(path, "r") as f: f.read()] *)
Definition read_file (path : pystr) : Py pystr := fun w =>
  let fs := w_fs w in
  match fs_files fs !! path with
  | Some text =>
      if bool_decide (path ∈ fs_denied fs) then (w, Raise PermissionError)
      else (w, Ok text)
  | None =>
      if bool_decide (path ∈ fs_dirs fs) then (w, Raise IsADirectoryError)
      else (w, Raise FileNotFoundError)
  end.

(** [os.remove(path)] *)
Definition os_remove (path : pystr) : Py unit := fun w =>
  let fs := w_fs w in
  match fs_files fs !! path with
  | Some _ =>
      if bool_decide (path ∈ fs_denied fs) then (w, Raise PermissionError)
      else (set_fs w (mk_fs (fs_dirs fs) (delete path (fs_files fs))
                            (fs_denied fs)), Ok tt)
  | None =>
      if bool_decide (path ∈ fs_dirs fs) then (w, Raise IsADirectoryError)
      else (w, Raise FileNotFoundError)
  end.

(** ** 4.2 External tool invoker *)

(** The shell and the processes it starts are outside the script: a command
    run in a working directory changes the file system at will and either
    gives a return code with the decoded standard output and standard error,
    or fails to start or to decode. *)
Class Shell :=
  spawn : pystr -> pystr -> filesystem ->
          filesystem * (exn + Z * pystr * pystr).

(** [run_command(command, cwd=None)]; awaiting is sequencing. *)
Definition run_command {sh : Shell} (command : pystr) (cwd : option pystr)
    : Py (Z * pystr * pystr) := fun w =>
  match spawn command (default (w_cwd w) cwd) (w_fs w) with
  | (fs', inl e) => (set_fs w fs', Raise e)
  | (fs', inr outcome) => (set_fs w fs', Ok outcome)
  end.

(** [f'kda gen -t "{template_path}" -o "{json_path}"'] *)
Definition gen_command (template_path json_path : pystr) : pystr :=
  str "kda gen -t " ++ dquote :: template_path ++ dquote :: str " -o "
  ++ dquote :: json_path ++ [dquote].

(** [f'kda local "{json_path}" -n "{network_url}"'] *)
Definition local_command (json_path network_url : pystr) : pystr :=
  str "kda local " ++ dquote :: json_path ++ dquote :: str " -n "
  ++ dquote :: network_url ++ [dquote].

(** [generate_json(template_path, json_path)] *)
Definition generate_json {sh : Shell} (template_path json_path : pystr)
    : Py unit :=
  let command := gen_command template_path json_path in
  '(returncode, stdout, stderr) ← run_command command None;
  when (negb (returncode =? 0)%Z)
    (print_stderr (ErrGenerateFailed stderr) ;; sys_exit 1) ;;
  created ← os_path_isfile json_path;
  when (negb created) (print_stderr ErrJsonNotCreated ;; sys_exit 1).

(** [run_kda_local(json_path, network_url)] *)
Definition run_kda_local {sh : Shell} (json_path network_url : pystr)
    : Py pystr :=
  let command := local_command json_path network_url in
  '(returncode, stdout, stderr) ← run_command command None;
  when (negb (returncode =? 0)%Z)
    (print_stderr (ErrLocalFailed stderr) ;; sys_exit 1) ;;
  mret stdout.

(** ** 4.3 Response extractor and 4.4 file writer: [parse_and_create_files] *)

(** [json.loads] of the standard library, which returns the decoded value or
    raises: [JSONDecodeError] for a text that is not JSON, and for a text that
    is JSON whatever else the decoder raises ([ValueError] for an integer
    literal beyond the digit limit, [RecursionError] for a nesting that is too
    deep). *)
Class JsonDecoder := json_loads : pystr -> exn + json.

(** Lines 141-146: the namespace and the module name of a validated name. *)
Definition derive_names (name : json) : result (json * pystr) :=
  match py_in [dot] name with
  | Ok true =>
      match name with
      | JStr s =>
          match rsplit1 dot s with
          | Some (namespace, module_name) => Ok (JStr namespace, module_name)
          | None => Raise ValueError
          end
      | _ => Raise AttributeError
      end
  | Ok false => Ok (name, str "KDA")
  | Raise e => Raise e
  | Exit code => Exit code
  end.

(** [os.path.join(namespace, f"{module_name}.pact")] *)
Definition module_filename (namespace : json) (module_name : pystr)
    : result pystr :=
  match namespace with
  | JStr ns => Ok (os_path_join ns (module_name ++ str ".pact"))
  | _ => Raise TypeError
  end.

(** Lines 131-169: the body of the loop over the modules of an entry. *)
Definition process_module (module : json) : Py unit :=
  name ← lift (dict_get module (str "name"));
  code ← lift (dict_get module (str "code"));
  if negb (py_truthy name) || negb (py_truthy code)
  then print_stderr WarnMissingNameOrCode
  else
    '(namespace, module_name) ← lift (derive_names name);
    created ← try_except (os_makedirs namespace true ;; mret true)
                 any_exception
                 (fun e => print_stderr (ErrMakeDirectory namespace e) ;;
                           mret false);
    if negb created then mret tt
    else
      filename ← lift (module_filename namespace module_name);
      try_except (write_file filename code) any_exception
        (fun e => print_stderr (ErrWriteFile filename e)).

(** Line 118: [entry["body"]["result"]["data"]] *)
Definition entry_data (entry : json) : result json :=
  match subscript entry (str "body") with
  | Ok body =>
      match subscript body (str "result") with
      | Ok res => subscript res (str "data")
      | other => other
      end
  | other => other
  end.

(** Lines 116-169: the body of the loop over the entries. *)
Definition process_entry (entry : json) : Py unit :=
  found ← try_except (result_data ← lift (entry_data entry);
                      mret (Some result_data))
             is_KeyError
             (fun e => print_stderr (WarnMissingKey e) ;; mret None);
  match found with
  | None => mret tt
  | Some (JList modules) => for_each modules process_module
  | Some _ => print_stderr WarnDataNotList
  end.

Definition parse_and_create_files {dec : JsonDecoder}
    (json_output network_url : pystr) : Py unit :=
  data ← try_except (lift (raised_or_returned (json_loads json_output)))
           is_JSONDecodeError
           (fun e => print_stderr ErrParseJson ;; sys_exit 1);
  present ← lift (py_in network_url data);
  when (negb present)
    (print_stderr (ErrUrlNotFound network_url) ;; sys_exit 1) ;;
  network_data ← lift (subscript data network_url);
  match network_data with
  | JList entries => for_each entries process_entry
  | _ => print_stderr ErrExpectedList ;; sys_exit 1
  end.

(** ** The script: [main] *)

(** What [parse_arguments] returns. *)
Record arguments := mk_arguments {
  network_url : pystr;
  chain : pystr;
  namespace : pystr
}.

(** The defaults of the three options. *)
Definition default_arguments : arguments :=
  mk_arguments (str "https://testnet.mindsend.xyz") (str "0")
    (str "n_9b079bebc8a0d688e4b2f4279a114148d6760edf").

(** The substitution map built in [main]. *)
Definition substitutions_of (args : arguments) : gmap pystr pystr :=
  <[str "namespace" := namespace args]> (<[str "chain" := chain args]> ∅).

(** The three paths of [main], rooted at the working directory
    ([os.path.abspath] of a bare file name is that name joined to
    [os.getcwd()]). *)
Definition template_path_in (cwd : pystr) : pystr :=
  os_path_join cwd (str "fetch-modules.ktpl").
Definition substituted_yaml_path_in (cwd : pystr) : pystr :=
  os_path_join cwd (str "substituted_config.ktpl").
Definition json_file_in (cwd : pystr) : pystr :=
  os_path_join cwd (str "temp_fetch_module_code.json").

(** Lines 181-221 of [main]: everything up to the clean-up. *)
Definition run_pipeline {db : UnicodeDB} {sh : Shell} {dec : JsonDecoder}
    (args : arguments) (template_path substituted_yaml_path json_file : pystr)
    : Py unit :=
  exists_ ← os_path_isfile template_path;
  when (negb exists_)
    (print_stderr (ErrTemplateMissing template_path) ;; sys_exit 1) ;;
  yaml_template_content ←
    try_except (read_file template_path) any_exception
      (fun e => print_stderr (ErrReadTemplate e) ;; sys_exit 1);
  let substitutions := substitutions_of args in
  let substituted_yaml_content :=
    substitute_placeholders yaml_template_content substitutions in
  try_except (write_file substituted_yaml_path (JStr substituted_yaml_content))
    any_exception
    (fun e => print_stderr (ErrWriteSubstituted e) ;; sys_exit 1) ;;
  generate_json substituted_yaml_path json_file ;;
  local_output ← run_kda_local json_file (network_url args);
  parse_and_create_files local_output (network_url args).

(** Lines 223-231 of [main]: both removals under one handler. *)
Definition remove_temporary_files (json_file substituted_yaml_path : pystr)
    : Py unit :=
  try_except (os_remove json_file ;; os_remove substituted_yaml_path)
    any_exception
    (fun e => print_stderr (WarnCleanup e)).

(** [main], after [parse_arguments] has returned [args]. *)
Definition main {db : UnicodeDB} {sh : Shell} {dec : JsonDecoder}
    (args : arguments) : Py unit :=
  cwd ← os_getcwd;
  let template_path := template_path_in cwd in
  let substituted_yaml_path := substituted_yaml_path_in cwd in
  let json_file := json_file_in cwd in
  run_pipeline args template_path substituted_yaml_path json_file ;;
  remove_temporary_files json_file substituted_yaml_path.

(** ** Vocabulary of the specification for the extractor *)

Definition is_list (v : json) : bool :=
  match v with JList _ => true | _ => false end.



(** The value under the top-level key [network_url] of a document, when the
    document is an object that has this key. *)
Definition top_level (data : json) (url : pystr) : option json :=
  match data with
  | JObj m => m !! url
  | _ => None
  end.

(** Lines 142-146 for a name that is a string: the namespace and the
    module name. *)
Definition split_name (name : pystr) : pystr * pystr :=
  match rsplit1 dot name with
  | Some (ns, leaf) => (ns, leaf)
  | None => (name, str "KDA")
  end.

(** ** Vocabulary of the specification for the whole run *)

Section Stages.
Context {db : UnicodeDB} {sh : Shell} {dec : JsonDecoder}.
Variable args : arguments.
Variable w : world.

Let tp := template_path_in (w_cwd w).
Let sp := substituted_yaml_path_in (w_cwd w).
Let jf := json_file_in (w_cwd w).

(** The template was read, rendered and written; [w1] is the world then. *)
Definition rendered (w1 : world) : Prop :=
  exists yaml,
    os_path_isfile tp w = (w, Ok true)
    /\ read_file tp w = (w, Ok yaml)
    /\ write_file sp
         (JStr (substitute_placeholders yaml (substitutions_of args))) w
       = (w1, Ok tt).

(** The generate step succeeded too; [w2] is the world then. *)
Definition generated (w2 : world) : Prop :=
  exists w1 out err,
    rendered w1
    /\ run_command (gen_command sp jf) None w1 = (w2, Ok (0%Z, out, err))
    /\ os_path_isfile jf w2 = (w2, Ok true).

(** The execute step succeeded too and printed [out]. *)
Definition fetched (w3 : world) (out : pystr) : Prop :=
  exists w2 err,
    generated w2
    /\ run_command (local_command jf (network_url args)) None w2
       = (w3, Ok (0%Z, out, err)).

(** The fatal errors that the specification lists, each with the world in
    which the run stops. *)
Inductive fatal_error : world -> Prop :=
  | template_missing :
      os_path_isfile tp w = (w, Ok false) ->
      fatal_error (print_line (ErrTemplateMissing tp) w)
  | template_unreadable w1 e :
      os_path_isfile tp w = (w, Ok true) ->
      read_file tp w = (w1, Raise e) ->
      fatal_error (print_line (ErrReadTemplate e) w1)
  | substituted_file_unwritable yaml w1 e :
      os_path_isfile tp w = (w, Ok true) ->
      read_file tp w = (w, Ok yaml) ->
      write_file sp
        (JStr (substitute_placeholders yaml (substitutions_of args))) w
      = (w1, Raise e) ->
      fatal_error (print_line (ErrWriteSubstituted e) w1)
  | generate_tool_nonzero w1 w2 returncode out err :
      rendered w1 ->
      run_command (gen_command sp jf) None w1
      = (w2, Ok (returncode, out, err)) ->
      returncode <> 0%Z ->
      fatal_error (print_line (ErrGenerateFailed err) w2)
  | generate_output_missing w1 w2 out err :
      rendered w1 ->
      run_command (gen_command sp jf) None w1 = (w2, Ok (0%Z, out, err)) ->
      os_path_isfile jf w2 = (w2, Ok false) ->
      fatal_error (print_line ErrJsonNotCreated w2)
  | local_tool_nonzero w2 w3 returncode out err :
      generated w2 ->
      run_command (local_command jf (network_url args)) None w2
      = (w3, Ok (returncode, out, err)) ->
      returncode <> 0%Z ->
      fatal_error (print_line (ErrLocalFailed err) w3)
  | json_parse_failure w3 out :
      fetched w3 out ->
      json_loads out = inl JSONDecodeError ->
      fatal_error (print_line ErrParseJson w3)
  | network_url_key_missing w3 out m :
      fetched w3 out ->
      json_loads out = inr (JObj m) ->
      m !! network_url args = None ->
      fatal_error (print_line (ErrUrlNotFound (network_url args)) w3)
  | payload_not_sequence w3 out m v :
      fetched w3 out ->
      json_loads out = inr (JObj m) ->
      m !! network_url args = Some v ->
      is_list v = false ->
      fatal_error (print_line ErrExpectedList w3).

End Stages.

(** A run that, if it ends by [sys.exit], ends with status 1. *)
Definition exits_with_1_only {A} (r : result A) : Prop :=
  forall code, r = Exit code -> code = 1%Z.

(** ** Sample runtimes and worlds *)

(** A Unicode database without word characters beyond ASCII. *)
Definition ascii_only : UnicodeDB := fun _ => false.

(** A working directory with nothing in it. *)
Definition fresh_world : world :=
  mk_world (str "/work") (mk_fs {[str "/work"]} ∅ ∅) [].

(** The object [{"name": name, "code": code}]. *)
Definition module_of (name code : pystr) : json :=
  JObj (<[str "name" := JStr name]> {[str "code" := JStr code]}).

(** A working directory in which a regular file named [ns] stands where a
    namespace directory is wanted, and a directory stands at [lib/Mod.pact],
    where a module file is wanted. *)
Definition obstructed_world : world :=
  mk_world (str "/work")
    (mk_fs {[str "/work"; str "lib"; str "lib/Mod.pact"]}
           {[str "ns" := str "not a directory"]} ∅) [].

(** The entry [{"body": {"result": {"data": data}}}]. *)
Definition entry_of (data : json) : json :=
  JObj {[str "body" := JObj {[str "result" := JObj {[str "data" := data]}]}]}.


(** A decoder that knows one document. *)
Definition decoder_of (text : pystr) (data : json) : JsonDecoder :=
  fun s => if bool_decide (s = text) then inr data else inl JSONDecodeError.

(** A decoder that raises [e] on every text. *)
Definition raising_decoder (e : exn) : JsonDecoder := fun _ => inl e.

(** A stand-in for the tool: [kda gen] writes the request file into the
    working directory, [kda local] prints [out]. *)
Definition sample_shell (out : pystr) : Shell := fun command cwd fs =>
  match strip_prefix (str "kda gen") command with
  | Some _ =>
      (mk_fs (fs_dirs fs) (<[json_file_in cwd := str "{}"]> (fs_files fs))
             (fs_denied fs),
       inr (0%Z, [], []))
  | None => (fs, inr (0%Z, out, []))
  end.

(** The same tool, except that [kda local] deletes the request file it was
    given. *)
Definition consuming_shell (out : pystr) : Shell := fun command cwd fs =>
  match strip_prefix (str "kda gen") command with
  | Some _ =>
      (mk_fs (fs_dirs fs) (<[json_file_in cwd := str "{}"]> (fs_files fs))
             (fs_denied fs),
       inr (0%Z, [], []))
  | None =>
      (mk_fs (fs_dirs fs) (delete (json_file_in cwd) (fs_files fs))
             (fs_denied fs),
       inr (0%Z, out, []))
  end.

(** A shell in which the tool is not installed. *)
Definition failing_shell : Shell := fun command cwd fs =>
  (fs, inr (127%Z, [], str "kda: command not found")).

(** A working directory that holds the template. *)
Definition template_world : world :=
  mk_world (str "/work")
    (mk_fs {[str "/work"]}
       {[str "/work/fetch-modules.ktpl"
         := str "chain: {{{chain}}} ns: {{{namespace}}}"]} ∅) [].

(** A response with one entry and one module. *)
Definition sample_response : json :=
  JObj {[str "https://testnet.mindsend.xyz"
         := JList [entry_of (JList [module_of (str "ns.foo.Thing")
                                      (str "(module Thing)")])]]}.

(** ** Vocabulary for further properties of the code *)

(** A path that ends with the extension of the module files. *)
Definition pact_path (p : pystr) : Prop := str ".pact" `suffix_of` p.

(** What the extractor may do to a world: it keeps the working directory
    and the permissions, keeps every directory and every file, changes the
    content of files with the module extension only, and appends to the
    error stream. *)
Definition only_adds_pact_files (w w' : world) : Prop :=
  w_cwd w' = w_cwd w
  /\ fs_denied (w_fs w') = fs_denied (w_fs w)
  /\ fs_dirs (w_fs w) ⊆ fs_dirs (w_fs w')
  /\ (forall p, is_Some (fs_files (w_fs w) !! p) ->
                is_Some (fs_files (w_fs w') !! p))
  /\ (forall p, ~ pact_path p ->
                fs_files (w_fs w') !! p = fs_files (w_fs w) !! p)
  /\ exists lines, w_stderr w' = w_stderr w ++ lines.

Definition is_str (v : json) : bool :=
  match v with JStr _ => true | _ => false end.

(** The world after [os.remove(path)] has succeeded. *)
Definition without_file (path : pystr) (w : world) : world :=
  set_fs w (mk_fs (fs_dirs (w_fs w)) (delete path (fs_files (w_fs w)))
                  (fs_denied (w_fs w))).

(** The world after [open(path, "w")] has created or truncated the file and
    [text] has been written. *)
Definition with_file (path text : pystr) (w : world) : world :=
  set_fs w (mk_fs (fs_dirs (w_fs w)) (<[path := text]> (fs_files (w_fs w)))
                  (fs_denied (w_fs w))).

(** ** Proof steps used more than once *)

(** The two ways in which the extractor aborts. *)
Ltac by_type_error w :=
  exists w, (Raise TypeError);
  split; [reflexivity|]; split; [reflexivity|]; split; [reflexivity|];
  split; [right; split; reflexivity|].

Ltac by_exit :=
  eexists _, _;
  split; [reflexivity|]; split; [reflexivity|]; split; [reflexivity|];
  split; [left; split; [reflexivity|eexists; reflexivity]|].

(** * Part II: properties *)

(** ** The renderer *)

Section RendererFacts.
Context {db : UnicodeDB}.

Lemma strip_prefix_Some (p s r : pystr) :
  strip_prefix p s = Some r <-> s = p ++ r.
Proof.
  revert s; induction p as [|a p IH]; intros s; simpl.
  - split; congruence.
  - destruct s as [|b s]; [split; discriminate|].
    destruct (N.eqb_spec a b) as [->|Hne].
    + rewrite IH. split; congruence.
    + split; [discriminate|]. intros [= Hab _]. congruence.
Qed.

Lemma strip_prefix_cons (a b : N) (p s : pystr) :
  strip_prefix (a :: p) (b :: s) =
  if N.eqb a b then strip_prefix p s else None.
Proof. reflexivity. Qed.

Lemma strip_prefix_app (p r : pystr) : strip_prefix p (p ++ r) = Some r.
Proof. by apply strip_prefix_Some. Qed.

Lemma is_word_lbrace : is_word lbrace = false.
Proof. reflexivity. Qed.

Lemma is_word_rbrace : is_word rbrace = false.
Proof. reflexivity. Qed.

Lemma word_key_cons (c : N) (k : pystr) :
  word_key (c :: k) = is_word c && forallb is_word k.
Proof. reflexivity. Qed.

Lemma word_key_forallb (k : pystr) :
  word_key k = true -> forallb is_word k = true.
Proof. destruct k; [discriminate|done]. Qed.

(** A successful match of the tail of the pattern has consumed a word key
    and the three closing braces. *)
Lemma word_group_then_close_Some (s k r : pystr) :
  word_group_then_close s = Some (k, r) ->
  s = k ++ close3 ++ r /\ word_key k = true.
Proof.
  revert k r; induction s as [|c s IH]; intros k r;
    cbn [word_group_then_close]; [discriminate|].
  destruct (is_word c) eqn:Hc; [|discriminate].
  destruct (word_group_then_close s) as [[k' r']|] eqn:Hrec.
  - intros [= <- <-]. destruct (IH _ _ eq_refl) as [-> Hk'].
    split; [done|]. rewrite word_key_cons, Hc. by apply word_key_forallb.
  - destruct (strip_prefix close3 s) as [r'|] eqn:Hs; [|discriminate].
    intros [= <- <-]. apply strip_prefix_Some in Hs as ->.
    split; [done|]. by rewrite word_key_cons, Hc.
Qed.

(** On a word key followed by the closing braces the greedy group takes the
    whole key: no shorter prefix is followed by a brace. *)
Lemma word_group_then_close_key (k post : pystr) :
  word_key k = true ->
  word_group_then_close (k ++ close3 ++ post) = Some (k, post).
Proof.
  destruct k as [|c k]; [discriminate|].
  rewrite word_key_cons. revert c.
  induction k as [|d k IH]; intros c [Hc Hk]%andb_prop.
  - change (word_group_then_close
              (c :: rbrace :: rbrace :: rbrace :: post) = Some ([c], post)).
    cbn [word_group_then_close]. rewrite Hc, is_word_rbrace.
    change (rbrace :: rbrace :: rbrace :: post) with (close3 ++ post).
    by rewrite strip_prefix_app.
  - simpl in Hk. change ((c :: d :: k) ++ close3 ++ post)
      with (c :: (d :: k) ++ close3 ++ post).
    cbn [word_group_then_close]. rewrite Hc.
    fold (word_group_then_close ((d :: k) ++ close3 ++ post)).
    rewrite (IH d) by (by rewrite Hk). done.
Qed.

Lemma match_at_Some (s k r : pystr) :
  match_at s = Some (k, r) ->
  s = placeholder k ++ r /\ word_key k = true.
Proof.
  unfold match_at. destruct (strip_prefix open3 s) as [s'|] eqn:Hs;
    [|discriminate].
  apply strip_prefix_Some in Hs as ->.
  intros [-> Hk]%word_group_then_close_Some. split; [|done].
  unfold placeholder. by rewrite <- !app_assoc.
Qed.

Lemma match_at_placeholder (k post : pystr) :
  word_key k = true -> match_at (placeholder k ++ post) = Some (k, post).
Proof.
  intros Hk. unfold match_at, placeholder.
  rewrite <- !app_assoc, strip_prefix_app.
  by apply word_group_then_close_key.
Qed.

Lemma match_at_shorter (s k r : pystr) :
  match_at s = Some (k, r) -> (length r < length s)%nat.
Proof.
  intros [-> _]%match_at_Some. unfold placeholder.
  rewrite !length_app. simpl. lia.
Qed.

(** A match does not depend on what follows it. *)
Lemma match_at_app (s k r x : pystr) :
  match_at s = Some (k, r) -> match_at (s ++ x) = Some (k, r ++ x).
Proof.
  intros [-> Hk]%match_at_Some. rewrite <- app_assoc.
  by apply match_at_placeholder.
Qed.

(** The scan never runs out of steps: any budget above the length of the
    text gives the same result. *)
Lemma sub_loop_enough (subs : gmap pystr pystr) (n m : nat) (text : pystr) :
  (length text < n)%nat -> (length text < m)%nat ->
  sub_loop n subs text = sub_loop m subs text.
Proof.
  revert m text; induction n as [|n IH]; intros m text Hn Hm; [lia|].
  destruct m as [|m]; [lia|]. simpl.
  destruct (match_at text) as [[k r]|] eqn:Hmatch.
  - apply match_at_shorter in Hmatch. f_equal. apply IH; lia.
  - destruct text as [|c text]; [done|]. simpl in *. f_equal. apply IH; lia.
Qed.

(** The defining equation of [pattern.sub]. *)
Lemma substitute_unfold (subs : gmap pystr pystr) (text : pystr) :
  substitute_placeholders text subs =
  match match_at text with
  | Some (key, rest) => replacer subs key ++ substitute_placeholders rest subs
  | None =>
      match text with
      | [] => []
      | c :: text' => c :: substitute_placeholders text' subs
      end
  end.
Proof.
  unfold substitute_placeholders at 1. cbn [sub_loop].
  destruct (match_at text) as [[k r]|] eqn:Hmatch.
  - apply match_at_shorter in Hmatch. f_equal.
    apply sub_loop_enough; lia.
  - destruct text as [|c text]; [done|]. f_equal.
Qed.

End RendererFacts.

Section RendererScan.
Context {db : UnicodeDB}.

(** Word characters up to three closing braces cannot reach past an opening
    brace: if the text [pre ++ "{{{" ++ y] starts with a key and its closing
    braces, these lie inside [pre]. *)
Lemma key_before_open (k pre y r : pystr) :
  forallb is_word k = true ->
  pre ++ open3 ++ y = k ++ close3 ++ r ->
  exists pre', pre = k ++ close3 ++ pre' /\ r = pre' ++ open3 ++ y.
Proof.
  revert pre; induction k as [|c k IH]; intros pre Hk Heq.
  - destruct pre as [|a [|b [|d pre]]]; simpl in Heq; try discriminate Heq.
    injection Heq as -> -> -> <-. by exists pre.
  - cbn [forallb] in Hk. apply andb_prop in Hk as [Hc Hk].
    destruct pre as [|a pre]; simpl in Heq.
    + assert (c = lbrace) as -> by congruence.
      by rewrite is_word_lbrace in Hc.
    + injection Heq as -> Heq.
      destruct (IH pre Hk Heq) as (pre' & -> & ->). by exists pre'.
Qed.

(** A match that starts before an opening ["{{{"] ends before it. *)
Lemma match_at_inside (pre x k r : pystr) :
  pre <> [] ->
  match_at (pre ++ open3 ++ x) = Some (k, r) ->
  exists pre', pre = placeholder k ++ pre' /\ r = pre' ++ open3 ++ x.
Proof.
  intros Hpre [Heq Hk]%match_at_Some.
  pose proof (word_key_forallb _ Hk) as Hall.
  destruct k as [|c k]; [discriminate|]. clear Hk.
  cbn [forallb] in Hall. apply andb_prop in Hall as [Hc Hk].
  unfold placeholder in Heq. rewrite <- !app_assoc in Heq.
  destruct pre as [|a1 [|a2 [|a3 pre]]]; [done| | |].
  - simpl in Heq. assert (c = lbrace) as -> by congruence.
    by rewrite is_word_lbrace in Hc.
  - simpl in Heq. assert (c = lbrace) as -> by congruence.
    by rewrite is_word_lbrace in Hc.
  - simpl in Heq. injection Heq as -> -> -> Heq.
    destruct (key_before_open (c :: k) pre x r) as (pre' & -> & ->).
    + cbn [forallb]. by rewrite Hc, Hk.
    + done.
    + exists pre'. split; [|done]. unfold placeholder.
      by rewrite <- !app_assoc.
Qed.

(** An opening ["{{{"] is a barrier of the scan: what precedes it is
    rendered on its own. *)
Lemma substitute_barrier (subs : gmap pystr pystr) (pre x : pystr) :
  substitute_placeholders (pre ++ open3 ++ x) subs =
  substitute_placeholders pre subs ++ substitute_placeholders (open3 ++ x) subs.
Proof.
  remember (length pre) as n eqn:Hn. revert pre Hn.
  induction n as [n IH] using lt_wf_ind. intros pre ->.
  destruct pre as [|c pre]; [done|].
  rewrite (substitute_unfold subs ((c :: pre) ++ open3 ++ x)).
  rewrite (substitute_unfold subs (c :: pre)).
  destruct (match_at ((c :: pre) ++ open3 ++ x)) as [[k r]|] eqn:Hmatch.
  - pose proof Hmatch as [_ Hk]%match_at_Some.
    apply match_at_inside in Hmatch as (pre' & Hpre & ->); [|done].
    rewrite Hpre, (match_at_placeholder k pre' Hk), <- app_assoc.
    f_equal. eapply IH; [|done].
    rewrite Hpre. unfold placeholder. rewrite !length_app. simpl. lia.
  - destruct (match_at (c :: pre)) as [[k r]|] eqn:Hm.
    + apply (match_at_app _ _ _ (open3 ++ x)) in Hm. congruence.
    + simpl. f_equal. eapply IH; [|done]. simpl. lia.
Qed.

End RendererScan.

Section RendererOccurrences.
Context {db : UnicodeDB}.

Lemma substitute_placeholder_head (subs : gmap pystr pystr) (k post : pystr) :
  word_key k = true ->
  substitute_placeholders (placeholder k ++ post) subs =
  replacer subs k ++ substitute_placeholders post subs.
Proof.
  intros Hk. by rewrite substitute_unfold, match_at_placeholder.
Qed.

(** Every occurrence of a placeholder with a word key is replaced by what
    [replacer] returns for it, wherever it stands. *)
Lemma substitute_occurrence (subs : gmap pystr pystr) (pre k post : pystr) :
  word_key k = true ->
  substitute_placeholders (pre ++ placeholder k ++ post) subs =
  substitute_placeholders pre subs ++ replacer subs k
  ++ substitute_placeholders post subs.
Proof.
  intros Hk. unfold placeholder at 1. rewrite <- (app_assoc open3).
  rewrite substitute_barrier. f_equal.
  rewrite <- (substitute_placeholder_head subs k post Hk).
  unfold placeholder. by rewrite <- !app_assoc.
Qed.

Lemma match_at_not_open (c : N) (s : pystr) :
  c <> lbrace -> match_at (c :: s) = None.
Proof.
  intros Hc. unfold match_at, open3. rewrite strip_prefix_cons.
  destruct (N.eqb_spec lbrace c); [congruence|done].
Qed.

Lemma substitute_skip (subs : gmap pystr pystr) (x s : pystr) :
  Forall (fun c => c <> lbrace) x ->
  substitute_placeholders (x ++ s) subs = x ++ substitute_placeholders s subs.
Proof.
  induction 1 as [|c x Hc _ IH]; [done|].
  simpl. rewrite substitute_unfold, match_at_not_open by done.
  by rewrite IH.
Qed.

Lemma pattern_search_false (text : pystr) :
  pattern_search text = false <-> placeholder_free text.
Proof.
  split.
  - induction text as [|c text IH]; intros Hs pre k post Hk Heq.
    + destruct pre; discriminate.
    + cbn [pattern_search] in Hs.
      destruct (match_at (c :: text)) eqn:Hm; [discriminate|].
      destruct pre as [|a pre].
      * rewrite app_nil_l in Heq.
        rewrite Heq, match_at_placeholder in Hm by done. discriminate.
      * injection Heq as -> Heq. by apply (IH Hs pre k post).
  - induction text as [|c text IH]; intros Hfree; [done|].
    cbn [pattern_search].
    destruct (match_at (c :: text)) as [[k r]|] eqn:Hm.
    + apply match_at_Some in Hm as [Heq Hk].
      by destruct (Hfree [] k r Hk).
    + apply IH. intros pre k post Hk ->.
      by apply (Hfree (c :: pre) k post Hk).
Qed.

(** A text without placeholders is rendered as it is. *)
Lemma substitute_placeholder_free (subs : gmap pystr pystr) (text : pystr) :
  placeholder_free text -> substitute_placeholders text subs = text.
Proof.
  intros Hfree%pattern_search_false.
  induction text as [|c text IH]; [done|].
  cbn [pattern_search] in Hfree. rewrite substitute_unfold.
  destruct (match_at (c :: text)); [discriminate|].
  by rewrite IH.
Qed.

(** Only the values under word keys matter. *)
Lemma substitute_agree (subs subs' : gmap pystr pystr) (text : pystr) :
  (forall k, word_key k = true -> subs !! k = subs' !! k) ->
  substitute_placeholders text subs = substitute_placeholders text subs'.
Proof.
  intros Hagree. remember (length text) as n eqn:Hn. revert text Hn.
  induction n as [n IH] using lt_wf_ind. intros text ->.
  rewrite (substitute_unfold subs), (substitute_unfold subs').
  destruct (match_at text) as [[k r]|] eqn:Hm.
  - pose proof (match_at_shorter _ _ _ Hm) as Hlt.
    apply match_at_Some in Hm as [_ Hk].
    unfold replacer. rewrite (Hagree k Hk). f_equal. by eapply IH.
  - destruct text as [|c text]; [done|]. f_equal.
    eapply IH; [|done]. simpl. lia.
Qed.

Lemma has_other_char_not_word (key : pystr) :
  has_other_char key = true -> forallb is_word key = false.
Proof.
  induction key as [|c key IH]; [discriminate|]. simpl.
  destruct (is_word c); [|done]. simpl. exact IH.
Qed.

Lemma has_other_char_word_key (key : pystr) :
  has_other_char key = true -> word_key key = false.
Proof.
  intros Hk%has_other_char_not_word. by destruct key.
Qed.

(** A key with a character that is neither a word character nor a brace
    stops the group before the closing braces. *)
Lemma word_group_then_close_None (key post : pystr) :
  brace_free key = true -> forallb is_word key = false ->
  word_group_then_close (key ++ close3 ++ post) = None.
Proof.
  induction key as [|c key IH]; [discriminate|].
  intros [_ Hfree]%andb_prop Hw. simpl in Hw.
  change ((c :: key) ++ close3 ++ post) with (c :: key ++ close3 ++ post).
  cbn [word_group_then_close].
  destruct (is_word c); [|done]. simpl in Hw.
  rewrite (IH Hfree Hw).
  destruct key as [|d key]; [discriminate|].
  apply andb_prop in Hfree as [[_ Hd]%andb_prop _].
  change ((d :: key) ++ close3 ++ post) with (d :: key ++ close3 ++ post).
  unfold close3 at 1. rewrite strip_prefix_cons.
  destruct (N.eqb_spec rbrace d) as [<-|]; [|done].
  by rewrite N.eqb_refl in Hd.
Qed.

Lemma brace_free_no_open (key : pystr) :
  brace_free key = true -> Forall (fun c => c <> lbrace) key.
Proof.
  intros Hfree. apply Forall_forall. intros c Hin.
  unfold brace_free in Hfree. rewrite forallb_forall in Hfree.
  apply list_elem_of_In in Hin. apply Hfree in Hin as [Hc _]%andb_prop.
  intros ->. by rewrite N.eqb_refl in Hc.
Qed.

(** A placeholder whose key holds a character outside the word class (and
    no brace) is copied as it is, wherever it stands. *)
Lemma substitute_other_key (subs : gmap pystr pystr) (pre key post : pystr) :
  has_other_char key = true -> brace_free key = true ->
  substitute_placeholders (pre ++ placeholder key ++ post) subs =
  substitute_placeholders pre subs ++ placeholder key
  ++ substitute_placeholders post subs.
Proof.
  intros Hother Hfree. unfold placeholder at 1.
  rewrite <- (app_assoc open3), substitute_barrier. f_equal.
  pose proof (has_other_char_not_word _ Hother) as Hw.
  pose proof (brace_free_no_open _ Hfree) as Hno.
  destruct key as [|d key]; [discriminate|].
  apply Forall_cons in Hno as [Hd Hno].
  (* no match at the first opening brace *)
  rewrite substitute_unfold. unfold match_at at 1.
  rewrite <- !app_assoc, strip_prefix_app.
  rewrite (word_group_then_close_None (d :: key) post Hfree Hw).
  (* nor at the second and the third *)
  change (open3 ++ (d :: key) ++ close3 ++ post)
    with (lbrace :: lbrace :: lbrace :: d :: key ++ close3 ++ post).
  cbv beta iota.
  rewrite (substitute_unfold subs (lbrace :: lbrace :: d :: _)).
  assert (Hm2 : match_at (lbrace :: lbrace :: d :: key ++ close3 ++ post)
                = None).
  { unfold match_at, open3. rewrite !strip_prefix_cons, !N.eqb_refl.
    destruct (N.eqb_spec lbrace d); [congruence|done]. }
  rewrite Hm2.
  rewrite (substitute_unfold subs (lbrace :: d :: _)).
  assert (Hm3 : match_at (lbrace :: d :: key ++ close3 ++ post) = None).
  { unfold match_at, open3. rewrite !strip_prefix_cons, !N.eqb_refl.
    destruct (N.eqb_spec lbrace d); [congruence|done]. }
  rewrite Hm3.
  (* the key and the closing braces hold no opening brace *)
  change (d :: key ++ close3 ++ post) with ((d :: key) ++ close3 ++ post).
  rewrite (app_assoc (d :: key)).
  rewrite substitute_skip.
  - unfold placeholder. by rewrite <- !app_assoc.
  - apply Forall_app. split; [by constructor|].
    repeat constructor; discriminate.
Qed.

End RendererOccurrences.

(** C1, as amended.  For every template text and substitution map, every
    occurrence of a placeholder [{{{key}}}] whose key is one or more word
    characters is replaced by the mapped value when the key is mapped, however
    often it occurs and whatever surrounds it, and is left unchanged, without
    an error, when the key is not mapped; a text in which no such placeholder
    occurs is returned unchanged. *)
Theorem substitute_placeholders_word_keys {db : UnicodeDB}
    (subs : gmap pystr pystr) (pre key post text : pystr) :
  word_key key = true ->
  placeholder_free text ->
  substitute_placeholders (pre ++ placeholder key ++ post) subs
  = substitute_placeholders pre subs
    ++ match subs !! key with
       | Some value => value
       | None => placeholder key
       end
    ++ substitute_placeholders post subs
  /\ substitute_placeholders text subs = text.
Proof.
  intros Hkey Hfree. split.
  - rewrite substitute_occurrence by done. unfold replacer.
    by destruct (subs !! key).
  - by apply substitute_placeholder_free.
Qed.

(** A template with the placeholder [chain] twice, once in the part before
    the occurrence the theorem is applied to, and an unmapped placeholder
    after it. *)
Lemma substitute_placeholders_word_keys_witness :
  substitute_placeholders (db := ascii_only)
    (str "a: {{{chain}}}, b: " ++ placeholder (str "chain")
     ++ str ", ns: {{{namespace}}}")
    {[str "chain" := str "1"]}
  = substitute_placeholders (db := ascii_only) (str "a: {{{chain}}}, b: ")
      {[str "chain" := str "1"]}
    ++ str "1"
    ++ substitute_placeholders (db := ascii_only)
         (str ", ns: {{{namespace}}}") {[str "chain" := str "1"]}
  /\ substitute_placeholders (db := ascii_only)
       (str "networkId: testnet04") {[str "chain" := str "1"]}
     = str "networkId: testnet04".
Proof.
  assert (Hfree : placeholder_free (db := ascii_only)
                    (str "networkId: testnet04"))
    by (apply pattern_search_false; reflexivity).
  exact (substitute_placeholders_word_keys (db := ascii_only)
           {[str "chain" := str "1"]} (str "a: {{{chain}}}, b: ")
           (str "chain") (str ", ns: {{{namespace}}}")
           (str "networkId: testnet04") eq_refl Hfree).
Defined.

(** C1 as stated fails: with the key [my-key] mapped to [v], the template
    [{{{my-key}}}] is returned as it is, not as [v].  The text is ASCII, so
    the Unicode table plays no part. *)
Lemma mapped_hyphen_key_not_replaced :
  ~ (forall (db : UnicodeDB) (subs : gmap pystr pystr) (pre key post v : pystr),
       subs !! key = Some v ->
       substitute_placeholders (db := db) (pre ++ placeholder key ++ post) subs =
       substitute_placeholders (db := db) pre subs ++ v
       ++ substitute_placeholders (db := db) post subs).
Proof.
  intros Hclaim.
  specialize (Hclaim ascii_only {[str "my-key" := str "v"]}
                [] (str "my-key") [] (str "v")).
  vm_compute in Hclaim. specialize (Hclaim eq_refl). discriminate Hclaim.
Qed.

(** The same run, evaluated. *)
Example render_hyphen_key :
  substitute_placeholders (db := ascii_only) (str "{{{my-key}}}")
    {[str "my-key" := str "v"]} = str "{{{my-key}}}".
Proof. vm_compute. reflexivity. Qed.

(** The round trip of the specification's section 8. *)
Example render_chain_and_namespace :
  substitute_placeholders (db := ascii_only)
    (str "chain: {{{chain}}} ns: {{{namespace}}} again {{{chain}}} {{{other}}}")
    (<[str "namespace" := str "n_test"]> {[str "chain" := str "1"]})
  = str "chain: 1 ns: n_test again 1 {{{other}}}".
Proof. vm_compute. reflexivity. Qed.

(** C9.  The renderer recognises only keys made of word characters: for
    every key with a character outside the word class, a mapping for that key
    changes the rendering of no template, and a placeholder with that key
    (the key holding no brace of its own) is copied to the output unchanged
    wherever it stands, whatever the map holds for it. *)
Theorem other_key_never_substituted {db : UnicodeDB} (key : pystr) :
  has_other_char key = true ->
  (forall (subs : gmap pystr pystr) (v text : pystr),
     substitute_placeholders text (<[key := v]> subs) =
     substitute_placeholders text subs)
  /\ (brace_free key = true ->
      forall (subs : gmap pystr pystr) (pre post : pystr),
        substitute_placeholders (pre ++ placeholder key ++ post) subs =
        substitute_placeholders pre subs ++ placeholder key
        ++ substitute_placeholders post subs).
Proof.
  intros Hother. split.
  - intros subs v text. apply substitute_agree. intros k Hk.
    apply lookup_insert_ne. intros ->.
    apply has_other_char_word_key in Hother. congruence.
  - intros Hfree subs pre post. by apply substitute_other_key.
Qed.

Lemma other_key_never_substituted_witness :
  (forall (subs : gmap pystr pystr) (v text : pystr),
     substitute_placeholders (db := ascii_only) text
       (<[str "my-key" := v]> subs)
     = substitute_placeholders (db := ascii_only) text subs)
  /\ (forall (subs : gmap pystr pystr) (pre post : pystr),
        substitute_placeholders (db := ascii_only)
          (pre ++ placeholder (str "my-key") ++ post) subs =
        substitute_placeholders (db := ascii_only) pre subs
        ++ placeholder (str "my-key")
        ++ substitute_placeholders (db := ascii_only) post subs).
Proof.
  destruct (other_key_never_substituted (db := ascii_only) (str "my-key")
              eq_refl) as [Hmap Hcopy].
  split; [exact Hmap|exact (Hcopy eq_refl)].
Defined.

(** ** Sequencing *)

Lemma for_each_cons {A} (x : A) (l : list A) (body : A -> Py unit) (w : world) :
  for_each (x :: l) body w =
  match body x w with
  | (w', Ok _) => for_each l body w'
  | (w', Raise e) => (w', Raise e)
  | (w', Exit code) => (w', Exit code)
  end.
Proof. reflexivity. Qed.

(** A loop over [l1 ++ l2] is the loop over [l1] followed, if that one ends
    normally, by the loop over [l2]. *)
Lemma for_each_app {A} (l1 l2 : list A) (body : A -> Py unit) (w : world) :
  for_each (l1 ++ l2) body w =
  match for_each l1 body w with
  | (w', Ok _) => for_each l2 body w'
  | (w', Raise e) => (w', Raise e)
  | (w', Exit code) => (w', Exit code)
  end.
Proof.
  revert w; induction l1 as [|x l1 IH]; intros w; [done|].
  change ((x :: l1) ++ l2) with (x :: l1 ++ l2).
  rewrite !for_each_cons.
  destruct (body x w) as [w' [[]| |]]; [apply IH|done|done].
Qed.

(** ** Names and paths *)

Lemma rsplit1_Some (sep : N) (s a b : pystr) :
  rsplit1 sep s = Some (a, b) -> s = a ++ sep :: b /\ sep ∉ b.
Proof.
  revert a b; induction s as [|c s IH]; intros a b; [discriminate|].
  cbn [rsplit1]. destruct (rsplit1 sep s) as [[a' b']|] eqn:Hrec.
  - intros [= <- <-]. destruct (IH _ _ eq_refl) as [-> Hb]. done.
  - destruct (N.eqb_spec c sep) as [->|]; [|discriminate].
    intros [= <- <-]. split; [done|].
    clear IH. induction s as [|d s IHs]; [apply not_elem_of_nil|].
    cbn [rsplit1] in Hrec.
    destruct (rsplit1 sep s) as [[]|]; [discriminate|].
    destruct (N.eqb_spec d sep); [discriminate|].
    apply not_elem_of_cons. split; [congruence|]. by apply IHs.
Qed.

Lemma rsplit1_None (sep : N) (s : pystr) :
  rsplit1 sep s = None <-> sep ∉ s.
Proof.
  induction s as [|c s IH]; cbn [rsplit1].
  - split; [intros _; apply not_elem_of_nil|done].
  - rewrite not_elem_of_cons.
    destruct (rsplit1 sep s) as [[a b]|].
    + split; [discriminate|]. intros [_ Hs]. by apply IH in Hs.
    + destruct (N.eqb_spec c sep) as [->|Hne].
      * split; [discriminate|]. by intros [? _].
      * split; [|done]. intros _. split; [congruence|]. by apply IH.
Qed.

Lemma is_substring_char (c : N) (s : pystr) :
  is_substring [c] s = true <-> c ∈ s.
Proof.
  induction s as [|d s IH]; cbn [is_substring].
  - cbn. split; [discriminate|]. by intros ?%elem_of_nil.
  - rewrite strip_prefix_cons. cbn [strip_prefix]. rewrite elem_of_cons.
    destruct (N.eqb_spec c d) as [->|Hne].
    + split; [by left|done].
    + rewrite IH. split; [by right|]. by intros [?|?].
Qed.

(** Lines 141-146 on a string: the split on the last dot, or the whole name
    and the default. *)
Lemma derive_names_str (name : pystr) :
  derive_names (JStr name) =
  match rsplit1 dot name with
  | Some (ns, leaf) => Ok (JStr ns, leaf)
  | None => Ok (JStr name, str "KDA")
  end.
Proof.
  unfold derive_names, py_in.
  destruct (is_substring [dot] name) eqn:Hdot.
  - apply is_substring_char in Hdot.
    destruct (rsplit1 dot name) as [[ns leaf]|] eqn:Hsplit; [done|].
    by apply rsplit1_None in Hsplit.
  - destruct (rsplit1 dot name) as [[ns leaf]|] eqn:Hsplit; [|done].
    apply rsplit1_Some in Hsplit as [-> _].
    assert (dot ∈ ns ++ dot :: leaf) as Hin%is_substring_char
      by (apply elem_of_app; right; left).
    congruence.
Qed.

(** Whatever the directory, a relative file name is kept at the end of the
    joined path. *)
Lemma os_path_join_relative (a b : pystr) :
  starts_with slash b = false -> os_path_join a b = dir_prefix a ++ b.
Proof.
  intros Hs. unfold os_path_join, dir_prefix. rewrite Hs.
  destruct (match a with [] => true | _ => ends_with slash a end); [done|].
  by rewrite <- app_assoc.
Qed.

Lemma derive_names_split (name : pystr) :
  derive_names (JStr name) =
  Ok (JStr (split_name name).1, (split_name name).2).
Proof.
  rewrite derive_names_str. unfold split_name.
  by destruct (rsplit1 dot name) as [[ns leaf]|].
Qed.

(** The split is on the last dot; without a dot the namespace is the whole
    name and the module name is the default. *)
Lemma split_name_spec (name ns leaf : pystr) :
  split_name name = (ns, leaf) ->
  (dot ∈ name -> name = ns ++ dot :: leaf /\ dot ∉ leaf)
  /\ (dot ∉ name -> ns = name /\ leaf = str "KDA").
Proof.
  unfold split_name. destruct (rsplit1 dot name) as [[a b]|] eqn:Hsplit.
  - intros [= <- <-]. apply rsplit1_Some in Hsplit as [-> Hb].
    split; [done|]. intros Hno. destruct Hno.
    apply elem_of_app. right. left.
  - intros [= <- <-]. apply rsplit1_None in Hsplit. by split.
Qed.

(** ** The loop over the modules *)

(** What the body of the loop does for a module that passes the validation
    of line 134 and whose names could be derived. *)
Lemma process_module_run (module name code ns : json) (leaf : pystr)
    (w : world) :
  dict_get module (str "name") = Ok name ->
  dict_get module (str "code") = Ok code ->
  py_truthy name = true -> py_truthy code = true ->
  derive_names name = Ok (ns, leaf) ->
  process_module module w =
  match os_makedirs ns true w with
  | (w1, Ok _) =>
      match module_filename ns leaf with
      | Ok filename =>
          match write_file filename code w1 with
          | (w2, Raise e) => (print_line (ErrWriteFile filename e) w2, Ok tt)
          | other => other
          end
      | Raise e => (w1, Raise e)
      | Exit c => (w1, Exit c)
      end
  | (w1, Raise e) => (print_line (ErrMakeDirectory ns e) w1, Ok tt)
  | (w1, Exit c) => (w1, Exit c)
  end.
Proof.
  intros Hname Hcode Htn Htc Hder.
  unfold process_module, mbind, Py_bind, lift, try_except, any_exception,
    mret, Py_ret.
  rewrite Hname, Hcode. cbv beta iota. rewrite Htn, Htc. cbn [negb orb].
  rewrite Hder. cbv beta iota.
  destruct (os_makedirs ns true w) as [w1 [[]|e|c]]; cbn [negb]; done.
Qed.


Lemma os_makedirs_world (name : json) (exist_ok : bool) (w w1 : world)
    (r : result unit) :
  os_makedirs name exist_ok w = (w1, r) ->
  w_stderr w1 = w_stderr w /\ w_cwd w1 = w_cwd w
  /\ fs_files (w_fs w1) = fs_files (w_fs w)
  /\ fs_denied (w_fs w1) = fs_denied (w_fs w)
  /\ (forall e, r = Raise e -> w1 = w) /\ (forall c, r <> Exit c).
Proof.
  unfold os_makedirs. intros Hrun.
  repeat (case_match; simplify_eq/=; try done).
Qed.

Lemma write_file_world (filename : pystr) (content : json) (w w2 : world)
    (r : result unit) :
  write_file filename content w = (w2, r) ->
  w_stderr w2 = w_stderr w /\ w_cwd w2 = w_cwd w
  /\ fs_dirs (w_fs w2) = fs_dirs (w_fs w)
  /\ fs_denied (w_fs w2) = fs_denied (w_fs w)
  /\ (forall c, r <> Exit c)
  /\ (r = Ok tt ->
      exists text, content = JStr text
        /\ fs_files (w_fs w2) = <[filename := text]> (fs_files (w_fs w))).
Proof.
  unfold write_file. intros Hrun.
  repeat (case_match; simplify_eq/=; try done).
  repeat split; try done. intros _. by eexists.
Qed.

Lemma os_makedirs_Ok (ns : pystr) (w w1 : world) :
  os_makedirs (JStr ns) true w = (w1, Ok tt) ->
  ns <> [] /\ ns ∈ fs_dirs (w_fs w1)
  /\ fs_dirs (w_fs w1) = {[ns]} ∪ fs_dirs (w_fs w)
  /\ fs_files (w_fs w1) = fs_files (w_fs w)
  /\ w_stderr w1 = w_stderr w.
Proof.
  unfold os_makedirs. intros Hrun.
  destruct (bool_decide_reflect (ns = [])) as [|Hns]; [discriminate|].
  destruct (bool_decide_reflect (ns ∈ fs_dirs (w_fs w))) as [Hin|Hout].
  { injection Hrun as <-. repeat split; try done. set_solver. }
  destruct (bool_decide (is_Some (fs_files (w_fs w) !! ns))); [discriminate|].
  destruct (bool_decide (ns ∈ fs_denied (w_fs w))); [discriminate|].
  injection Hrun as <-. repeat split; try done. set_solver.
Qed.

(** C2, as amended.  For every module whose name and code are both present
    and non-empty strings, the extractor splits the name on its last dot into
    namespace and leaf name (without a dot: the whole name and ["KDA"]); and,
    the leaf name not beginning with a slash, when creating the namespace
    directory and writing the file both succeed, the module's processing adds
    exactly one file, at the path [<namespace>/<leaf>.pact] (no second slash
    after a namespace that ends with one) and with the code as its content,
    and reports nothing. *)
Theorem well_formed_module_written (m : gmap pystr json)
    (name code ns leaf : pystr) (w w1 w2 : world) :
  m !! str "name" = Some (JStr name) ->
  m !! str "code" = Some (JStr code) ->
  name <> [] -> code <> [] ->
  split_name name = (ns, leaf) ->
  starts_with slash leaf = false ->
  os_makedirs (JStr ns) true w = (w1, Ok tt) ->
  write_file (os_path_join ns (leaf ++ str ".pact")) (JStr code) w1
    = (w2, Ok tt) ->
  (dot ∈ name -> name = ns ++ dot :: leaf /\ dot ∉ leaf)
  /\ (dot ∉ name -> ns = name /\ leaf = str "KDA")
  /\ process_module (JObj m) w = (w2, Ok tt)
  /\ os_path_join ns (leaf ++ str ".pact") = dir_prefix ns ++ leaf ++ str ".pact"
  /\ (ends_with slash ns = false -> dir_prefix ns = ns ++ [slash])
  /\ fs_files (w_fs w2)
     = <[dir_prefix ns ++ leaf ++ str ".pact" := code]> (fs_files (w_fs w))
  /\ fs_dirs (w_fs w2) = {[ns]} ∪ fs_dirs (w_fs w)
  /\ w_stderr w2 = w_stderr w.
Proof.
  intros Hname Hcode Hn Hc Hsplit Hrel Hmk Hwr.
  destruct (split_name_spec _ _ _ Hsplit) as [Hdot Hnodot].
  split; [done|]. split; [done|].
  pose proof (derive_names_split name) as Hder.
  rewrite Hsplit in Hder. cbn [fst snd] in Hder.
  split.
  { rewrite (process_module_run (JObj m) (JStr name) (JStr code) (JStr ns) leaf).
    - rewrite Hmk. cbn [module_filename]. by rewrite Hwr.
    - unfold dict_get. by rewrite Hname.
    - unfold dict_get. by rewrite Hcode.
    - by destruct name.
    - by destruct code.
    - done. }
  assert (Hpath : os_path_join ns (leaf ++ str ".pact")
                  = dir_prefix ns ++ leaf ++ str ".pact")
    by (apply os_path_join_relative; by destruct leaf).
  split; [done|].
  apply os_makedirs_Ok in Hmk as (Hns & _ & Hdirs & Hfiles & Herr).
  split.
  { intros Hend. unfold dir_prefix. destruct ns; [done|]. by rewrite Hend. }
  apply write_file_world in Hwr as (Herr2 & _ & Hdirs2 & _ & _ & Hok).
  destruct (Hok eq_refl) as (text & [= <-] & Hfiles2).
  split; [by rewrite Hfiles2, Hfiles, Hpath|].
  split; [by rewrite Hdirs2, Hdirs|].
  by rewrite Herr2, Herr.
Qed.

(** The run of the specification's section 8: the module [ns.foo.Thing] in
    an empty working directory. *)
Lemma well_formed_module_written_witness :
  let m : gmap pystr json :=
    <[str "name" := JStr (str "ns.foo.Thing")]>
      {[str "code" := JStr (str "(module Thing)")]} in
  let w1 := (os_makedirs (JStr (str "ns.foo")) true fresh_world).1 in
  let w2 := (write_file (str "ns.foo/Thing.pact") (JStr (str "(module Thing)"))
               w1).1 in
  process_module (JObj m) fresh_world = (w2, Ok tt)
  /\ fs_files (w_fs w2)
     = <[str "ns.foo/Thing.pact" := str "(module Thing)"]>
         (fs_files (w_fs fresh_world))
  /\ w_stderr w2 = [].
Proof.
  intros m w1 w2.
  assert (Hname : str "ns.foo.Thing" <> []) by discriminate.
  assert (Hcode : str "(module Thing)" <> []) by discriminate.
  pose proof (well_formed_module_written m (str "ns.foo.Thing")
                (str "(module Thing)") (str "ns.foo") (str "Thing")
                fresh_world w1 w2 eq_refl eq_refl Hname Hcode
                eq_refl eq_refl eq_refl eq_refl)
    as (_ & _ & Hrun & _ & _ & Hfiles & _ & Herr).
  split; [exact Hrun|]. split; [exact Hfiles|exact Herr].
Defined.

Example split_dotted_name :
  split_name (str "ns.foo.Thing") = (str "ns.foo", str "Thing")
  /\ os_path_join (str "ns.foo") (str "Thing" ++ str ".pact")
     = str "ns.foo/Thing.pact".
Proof. split; reflexivity. Qed.

Example split_plain_name :
  split_name (str "standalone") = (str "standalone", str "KDA")
  /\ os_path_join (str "standalone") (str "KDA" ++ str ".pact")
     = str "standalone/KDA.pact".
Proof. split; reflexivity. Qed.

Example standalone_module_file :
  process_module (module_of (str "standalone") (str "(module KDA)")) fresh_world
  = (set_fs fresh_world
       (mk_fs {[str "standalone"; str "/work"]}
          {[str "standalone/KDA.pact" := str "(module KDA)"]} ∅),
     Ok tt).
Proof. vm_compute. reflexivity. Qed.

(** C2 as stated fails on two modules whose name and code are present and
    non-empty.  For the name [a./tmp/b] the leaf name [/tmp/b] is absolute, so
    the file is written at [/tmp/b.pact] and nothing appears at
    [a//tmp/b.pact]; for the name [.Thing] the namespace is empty, the
    directory cannot be created and no file is written at all. *)
Lemma well_formed_module_not_under_namespace :
  (split_name (str "a./tmp/b") = (str "a", str "/tmp/b")
   /\ exists w',
        process_module (module_of (str "a./tmp/b") (str "x")) fresh_world
        = (w', Ok tt)
        /\ fs_files (w_fs w') = {[str "/tmp/b.pact" := str "x"]}
        /\ fs_files (w_fs w') !! str "a//tmp/b.pact" = None)
  /\ (split_name (str ".Thing") = ([], str "Thing")
      /\ process_module (module_of (str ".Thing") (str "x")) fresh_world
         = (print_line (ErrMakeDirectory (JStr []) FileNotFoundError)
              fresh_world, Ok tt)).
Proof.
  split; (split; [reflexivity|]).
  - eexists. split; [vm_compute; reflexivity|].
    split; vm_compute; reflexivity.
  - vm_compute. reflexivity.
Qed.



(** C7.  For every module that passes the validation of line 134 and whose
    namespace could be derived: a failure to create the namespace directory is
    reported and only skips that module, the loop going on with the modules
    that follow; a failure to write the file is reported as well and the loop
    goes on; and whatever the file system answers, the processing of the
    module ends normally, so that neither failure aborts the run. *)
Theorem directory_and_write_failures_not_fatal (module name code ns : json)
    (leaf : pystr) (rest : list json) (w : world) :
  dict_get module (str "name") = Ok name ->
  dict_get module (str "code") = Ok code ->
  py_truthy name = true -> py_truthy code = true ->
  derive_names name = Ok (ns, leaf) ->
  (forall w1 e,
     os_makedirs ns true w = (w1, Raise e) ->
     w1 = w
     /\ process_module module w
        = (print_line (ErrMakeDirectory ns e) w, Ok tt)
     /\ for_each (module :: rest) process_module w
        = for_each rest process_module (print_line (ErrMakeDirectory ns e) w))
  /\ (forall w1 filename w2 e,
       os_makedirs ns true w = (w1, Ok tt) ->
       module_filename ns leaf = Ok filename ->
       write_file filename code w1 = (w2, Raise e) ->
       process_module module w
       = (print_line (ErrWriteFile filename e) w2, Ok tt)
       /\ for_each (module :: rest) process_module w
          = for_each rest process_module
              (print_line (ErrWriteFile filename e) w2))
  /\ exists w', process_module module w = (w', Ok tt).
Proof.
  intros Hname Hcode Htn Htc Hder.
  pose proof (process_module_run module name code ns leaf w
                Hname Hcode Htn Htc Hder) as Hrun.
  split; [|split].
  - intros w1 e Hmk.
    destruct (os_makedirs_world _ _ _ _ _ Hmk) as (_ & _ & _ & _ & Hsame & _).
    rewrite (Hsame e eq_refl) in Hmk. rewrite Hmk in Hrun.
    split; [by eapply Hsame|]. split; [done|].
    by rewrite for_each_cons, Hrun.
  - intros w1 filename w2 e Hmk Hfile Hwr.
    rewrite Hmk, Hfile, Hwr in Hrun. split; [done|].
    by rewrite for_each_cons, Hrun.
  - destruct (os_makedirs ns true w) as [w1 [[]|e|c]] eqn:Hmk.
    + destruct ns as [| | | |p| |]; try discriminate Hmk.
      cbn [module_filename] in Hrun.
      destruct (write_file _ code w1) as [w2 [[]|e|c]] eqn:Hwr;
        [by eexists|by eexists|].
      by destruct (write_file_world _ _ _ _ _ Hwr) as (_ & _ & _ & _ & Hno & _);
        destruct (Hno c).
    + by eexists.
    + by destruct (os_makedirs_world _ _ _ _ _ Hmk) as (_ & _ & _ & _ & _ & Hno);
        destruct (Hno c).
Qed.

(** Two modules in a working directory where the first cannot get its
    directory and the second cannot get its file: both failures are reported
    and the third module is written. *)
Lemma directory_and_write_failures_not_fatal_witness :
  for_each
    [module_of (str "ns.A") (str "(module A)");
     module_of (str "lib.Mod") (str "(module Mod)");
     module_of (str "lib.Other") (str "(module Other)")]
    process_module obstructed_world
  = (mk_world (str "/work")
       (mk_fs {[str "/work"; str "lib"; str "lib/Mod.pact"]}
          (<[str "lib/Other.pact" := str "(module Other)"]>
             {[str "ns" := str "not a directory"]}) ∅)
       [ErrMakeDirectory (JStr (str "ns")) FileExistsError;
        ErrWriteFile (str "lib/Mod.pact") IsADirectoryError],
     Ok tt).
Proof.
  pose proof (directory_and_write_failures_not_fatal
                (module_of (str "ns.A") (str "(module A)"))
                (JStr (str "ns.A")) (JStr (str "(module A)"))
                (JStr (str "ns")) (str "A")
                [module_of (str "lib.Mod") (str "(module Mod)");
                 module_of (str "lib.Other") (str "(module Other)")]
                obstructed_world eq_refl eq_refl eq_refl eq_refl eq_refl)
    as [Hmk _].
  destruct (Hmk obstructed_world FileExistsError eq_refl) as (_ & _ & ->).
  pose proof (directory_and_write_failures_not_fatal
                (module_of (str "lib.Mod") (str "(module Mod)"))
                (JStr (str "lib.Mod")) (JStr (str "(module Mod)"))
                (JStr (str "lib")) (str "Mod")
                [module_of (str "lib.Other") (str "(module Other)")]
                (print_line (ErrMakeDirectory (JStr (str "ns")) FileExistsError)
                   obstructed_world)
                eq_refl eq_refl eq_refl eq_refl eq_refl)
    as (_ & Hwr & _).
  destruct (Hwr _ (str "lib/Mod.pact") _ IsADirectoryError
              eq_refl eq_refl eq_refl) as [_ ->].
  vm_compute. reflexivity.
Defined.

(** ** Two modules of one namespace *)

Lemma print_line_stderr (msg : message) (w : world) :
  w_stderr (print_line msg w) = w_stderr w ++ [msg].
Proof. reflexivity. Qed.

(** The body of the loop only ever appends to the error stream. *)
Lemma process_module_stderr (module : json) (w w' : world) (r : result unit) :
  process_module module w = (w', r) ->
  exists l, w_stderr w' = w_stderr w ++ l.
Proof.
  unfold process_module, mbind, Py_bind, lift, try_except, any_exception,
    mret, Py_ret.
  destruct (dict_get module (str "name")) as [name|e|c];
    [|intros [= <- _]; exists []; by rewrite app_nil_r..].
  destruct (dict_get module (str "code")) as [code|e|c];
    [|intros [= <- _]; exists []; by rewrite app_nil_r..].
  destruct (negb (py_truthy name) || negb (py_truthy code)).
  { intros [= <- _]. by eexists. }
  destruct (derive_names name) as [[ns leaf]|e|c];
    [|intros [= <- _]; exists []; by rewrite app_nil_r..].
  destruct (os_makedirs ns true w) as [w1 [[]|e|c]] eqn:Hmk;
    apply os_makedirs_world in Hmk as (Herr & _); cbn [negb].
  - destruct (module_filename ns leaf) as [filename|e|c];
      [|intros [= <- _]; exists []; by rewrite app_nil_r, Herr..].
    destruct (write_file filename code w1) as [w2 [[]|e|c]] eqn:Hwr;
      apply write_file_world in Hwr as (Herr2 & _); intros [= <- _].
    + exists []. by rewrite app_nil_r, Herr2, Herr.
    + eexists. by rewrite print_line_stderr, Herr2, Herr.
    + exists []. by rewrite app_nil_r, Herr2, Herr.
  - intros [= <- _]. eexists. by rewrite print_line_stderr, Herr.
  - intros [= <- _]. exists []. by rewrite app_nil_r, Herr.
Qed.

(** A well-formed module processed without a line on the error stream got
    its directory and its file. *)
Lemma process_module_quiet (m : gmap pystr json) (name code ns leaf : pystr)
    (w w' : world) (r : result unit) :
  m !! str "name" = Some (JStr name) ->
  m !! str "code" = Some (JStr code) ->
  name <> [] -> code <> [] ->
  split_name name = (ns, leaf) ->
  process_module (JObj m) w = (w', r) ->
  w_stderr w' = w_stderr w ->
  exists w1,
    os_makedirs (JStr ns) true w = (w1, Ok tt)
    /\ write_file (os_path_join ns (leaf ++ str ".pact")) (JStr code) w1
       = (w', Ok tt).
Proof.
  intros Hname Hcode Hn Hc Hsplit Hrun Hquiet.
  pose proof (derive_names_split name) as Hder.
  rewrite Hsplit in Hder. cbn [fst snd] in Hder.
  rewrite (process_module_run (JObj m) (JStr name) (JStr code) (JStr ns) leaf)
    in Hrun; [|unfold dict_get; by rewrite ?Hname, ?Hcode
              |unfold dict_get; by rewrite ?Hname, ?Hcode
              |by destruct name|by destruct code|done].
  destruct (os_makedirs (JStr ns) true w) as [w1 [[]|e|c]] eqn:Hmk.
  - cbn [module_filename] in Hrun.
    destruct (write_file _ (JStr code) w1) as [w2 [[]|e|c]] eqn:Hwr.
    + injection Hrun as <- _. by exists w1.
    + injection Hrun as <- _. exfalso.
      apply os_makedirs_world in Hmk as (Herr & _).
      apply write_file_world in Hwr as (Herr2 & _).
      rewrite print_line_stderr, Herr2, Herr in Hquiet.
      apply (f_equal length) in Hquiet. rewrite length_app in Hquiet.
      simpl in Hquiet. lia.
    + by destruct (write_file_world _ _ _ _ _ Hwr) as (_ & _ & _ & _ & Hno & _);
        destruct (Hno c).
  - injection Hrun as <- _. exfalso.
    apply os_makedirs_world in Hmk as (Herr & _).
    rewrite print_line_stderr, Herr in Hquiet.
    apply (f_equal length) in Hquiet. rewrite length_app in Hquiet.
    simpl in Hquiet. lia.
  - by destruct (os_makedirs_world _ _ _ _ _ Hmk) as (_ & _ & _ & _ & _ & Hno);
      destruct (Hno c).
Qed.


(** Without [exist_ok] the second creation would fail. *)
Remark os_makedirs_existing_strict (ns : pystr) (w : world) :
  ns <> [] -> ns ∈ fs_dirs (w_fs w) ->
  os_makedirs (JStr ns) false w = (w, Raise FileExistsError).
Proof.
  intros Hns Hin. unfold os_makedirs.
  rewrite bool_decide_eq_false_2 by done.
  by rewrite bool_decide_eq_true_2.
Qed.






(** ** The loop over the entries *)


Lemma process_entry_run (entry : json) (w : world) :
  process_entry entry w =
  match entry_data entry with
  | Ok (JList modules) => for_each modules process_module w
  | Ok _ => (print_line WarnDataNotList w, Ok tt)
  | Raise (KeyError k) => (print_line (WarnMissingKey (KeyError k)) w, Ok tt)
  | Raise e => (w, Raise e)
  | Exit c => (w, Exit c)
  end.
Proof.
  unfold process_entry, mbind, Py_bind, try_except, lift, mret, Py_ret.
  destruct (entry_data entry) as [[]|[]|]; reflexivity.
Qed.



(** Values of another shape are not covered by these warnings.  Subscripting
    a [body] that is not an object raises [TypeError], which line 119 does not
    catch, and [.get] on a module that is not an object raises
    [AttributeError]; nothing catches either, so the run ends there and the
    entries and modules that follow are not processed. *)
Example entry_with_null_body_raises :
  for_each
    [JObj {[str "body" := JNull]};
     entry_of (JList [module_of (str "ns.A") (str "(module A)")])]
    process_entry fresh_world
  = (fresh_world, Raise TypeError).
Proof. vm_compute. reflexivity. Qed.

Example module_that_is_a_string_raises :
  for_each [JStr (str "coin"); module_of (str "ns.A") (str "(module A)")]
    process_module fresh_world
  = (fresh_world, Raise AttributeError).
Proof. vm_compute. reflexivity. Qed.

(** ** The response document *)

Section Response.
Context {dec : JsonDecoder}.

Lemma parse_and_create_files_run (text url : pystr) (w : world) :
  parse_and_create_files text url w =
  match json_loads text with
  | inl e =>
      if is_JSONDecodeError e then (print_line ErrParseJson w, Exit 1)
      else (w, Raise e)
  | inr data =>
      match py_in url data with
      | Ok true =>
          match subscript data url with
          | Ok (JList entries) => for_each entries process_entry w
          | Ok _ => (print_line ErrExpectedList w, Exit 1)
          | Raise e => (w, Raise e)
          | Exit c => (w, Exit c)
          end
      | Ok false => (print_line (ErrUrlNotFound url) w, Exit 1)
      | Raise e => (w, Raise e)
      | Exit c => (w, Exit c)
      end
  end.
Proof.
  unfold parse_and_create_files, mbind, Py_bind, lift, mret, Py_ret, when,
    try_except, raised_or_returned.
  destruct (json_loads text) as [e|data]; [by destruct e|].
  destruct (py_in url data) as [[]| |]; try reflexivity.
  cbn [negb]. destruct (subscript data url) as [[]| |]; reflexivity.
Qed.

(** C3.  For every response text that decodes to a document in which the
    network URL is not a top-level key, or in which the value under that key
    is not a sequence, the extractor aborts: the exit status is 1, the error
    is reported, and the file system is left as it was, so that no output
    file is written.  When the document is an object, as the tool prints it,
    the abort is the [sys.exit(1)] of line 107 or of line 113 after the
    message of that line; a document that is not an object either takes the
    same exit of line 107 or ends the run by an uncaught [TypeError], which
    the interpreter reports with the same status. *)
Theorem missing_url_or_non_sequence_aborts (text url : pystr) (data : json)
    (w : world) :
  json_loads text = inr data ->
  match top_level data url with
  | Some v => is_list v = false
  | None => True
  end ->
  exists w' r,
    parse_and_create_files text url w = (w', r)
    /\ exit_status r = 1%Z
    /\ w_fs w' = w_fs w
    /\ ((r = Exit 1 /\ exists msg, w' = print_line msg w)
        \/ (r = Raise TypeError /\ w' = w))
    /\ (forall m, data = JObj m ->
          r = Exit 1
          /\ w' = print_line (match m !! url with
                              | None => ErrUrlNotFound url
                              | Some _ => ErrExpectedList
                              end) w).
Proof.
  intros Hdata Hlacks. rewrite parse_and_create_files_run, Hdata.
  destruct data as [|b|z|f|s|l|m]; cbn [py_in subscript top_level] in *.
  1-4: by by_type_error w.
  - destruct (is_substring url s); [by by_type_error w|].
    by by_exit.
  - destruct (existsb _ l); [by by_type_error w|].
    by by_exit.
  - destruct (m !! url) as [v|] eqn:Hv.
    + rewrite bool_decide_eq_true_2 by (by eexists).
      destruct v; try discriminate Hlacks;
        (by_exit; intros ? [= <-]; by rewrite Hv).
    + rewrite bool_decide_eq_false_2 by (by intros [? ?]).
      by_exit. intros ? [= <-]. by rewrite Hv.
Qed.

End Response.

(** A document without the network URL. *)
Lemma missing_url_or_non_sequence_aborts_witness :
  parse_and_create_files
    (dec := decoder_of (str "{}") (JObj ∅))
    (str "{}") (str "https://testnet.mindsend.xyz") fresh_world
  = (print_line (ErrUrlNotFound (str "https://testnet.mindsend.xyz"))
       fresh_world, Exit 1).
Proof.
  pose proof (missing_url_or_non_sequence_aborts
                (dec := decoder_of (str "{}") (JObj ∅))
                (str "{}") (str "https://testnet.mindsend.xyz") (JObj ∅)
                fresh_world eq_refl) as Habort.
  destruct Habort as (w' & r & Hrun & _ & _ & _ & Hobj); [exact I|].
  destruct (Hobj ∅ eq_refl) as [-> ->]. exact Hrun.
Defined.

(** ** Exit codes *)

Lemma derive_names_no_exit (name : json) (c : Z) : derive_names name <> Exit c.
Proof.
  unfold derive_names, py_in.
  destruct name; try discriminate; repeat case_match; discriminate.
Qed.

Lemma for_each_no_exit {A} (body : A -> Py unit) (l : list A) :
  (forall x w w' c, body x w <> (w', Exit c)) ->
  forall w w' c, for_each l body w <> (w', Exit c).
Proof.
  intros Hbody. induction l as [|x l IH]; intros w w' c; [discriminate|].
  rewrite for_each_cons.
  destruct (body x w) as [w1 [[]|e|c1]] eqn:Hx; [apply IH|discriminate|].
  by destruct (Hbody x w w1 c1).
Qed.

Lemma process_module_no_exit (module : json) (w w' : world) (c : Z) :
  process_module module w <> (w', Exit c).
Proof.
  unfold process_module, mbind, Py_bind, lift, try_except, any_exception,
    mret, Py_ret.
  destruct (dict_get module (str "name")) as [name|e|c0] eqn:Hn;
    [|discriminate|by destruct module].
  destruct (dict_get module (str "code")) as [code|e|c0] eqn:Hc;
    [|discriminate|by destruct module].
  destruct (negb (py_truthy name) || negb (py_truthy code)); [discriminate|].
  destruct (derive_names name) as [[ns leaf]|e|c0] eqn:Hd;
    [|discriminate|by destruct (derive_names_no_exit name c0)].
  destruct (os_makedirs ns true w) as [w1 [[]|e|c0]] eqn:Hmk; cbn [negb];
    [|discriminate
     |by destruct (os_makedirs_world _ _ _ _ _ Hmk) as (_&_&_&_&_&Hno);
         destruct (Hno c0)].
  destruct (module_filename ns leaf) as [filename|e|c0] eqn:Hf;
    [|discriminate|by destruct ns].
  destruct (write_file filename code w1) as [w2 [[]|e|c0]] eqn:Hwr;
    [discriminate|discriminate|].
  by destruct (write_file_world _ _ _ _ _ Hwr) as (_&_&_&_&Hno&_);
    destruct (Hno c0).
Qed.

Lemma process_entry_no_exit (entry : json) (w w' : world) (c : Z) :
  process_entry entry w <> (w', Exit c).
Proof.
  rewrite process_entry_run.
  destruct (entry_data entry) as [v|e|c0] eqn:Hd.
  - destruct v; try discriminate.
    apply for_each_no_exit. apply process_module_no_exit.
  - by destruct e.
  - unfold entry_data, subscript in Hd. repeat case_match; discriminate.
Qed.

Section WholeRun.
Context {db : UnicodeDB} {sh : Shell} {dec : JsonDecoder}.

Lemma run_command_no_exit (command : pystr) (cwd : option pystr)
    (w w' : world) (c : Z) :
  run_command command cwd w <> (w', Exit c).
Proof.
  unfold run_command.
  by destruct (spawn command (default (w_cwd w) cwd) (w_fs w)) as [fs' [e|o]].
Qed.

Lemma os_path_isfile_run (path : pystr) (w : world) :
  os_path_isfile path w
  = (w, Ok (bool_decide (is_Some (fs_files (w_fs w) !! path)))).
Proof. reflexivity. Qed.

(** The generate step, by the answer of the tool. *)
Lemma generate_json_run (template_path json_path : pystr) (w : world) :
  generate_json template_path json_path w =
  match run_command (gen_command template_path json_path) None w with
  | (w1, Ok (returncode, _, err)) =>
      if (returncode =? 0)%Z then
        if bool_decide (is_Some (fs_files (w_fs w1) !! json_path))
        then (w1, Ok tt)
        else (print_line ErrJsonNotCreated w1, Exit 1)
      else (print_line (ErrGenerateFailed err) w1, Exit 1)
  | (w1, Raise e) => (w1, Raise e)
  | (w1, Exit c) => (w1, Exit c)
  end.
Proof.
  unfold generate_json, mbind, Py_bind, when, mret, Py_ret.
  destruct (run_command _ None w) as [w1 [[[rc out] err]|e|c]]; try done.
  destruct (rc =? 0)%Z; cbn [negb]; [|done].
  rewrite os_path_isfile_run.
  by destruct (bool_decide (is_Some (fs_files (w_fs w1) !! json_path))).
Qed.

(** The execute step, by the answer of the tool. *)
Lemma run_kda_local_run (json_path url : pystr) (w : world) :
  run_kda_local json_path url w =
  match run_command (local_command json_path url) None w with
  | (w1, Ok (returncode, out, err)) =>
      if (returncode =? 0)%Z then (w1, Ok out)
      else (print_line (ErrLocalFailed err) w1, Exit 1)
  | (w1, Raise e) => (w1, Raise e)
  | (w1, Exit c) => (w1, Exit c)
  end.
Proof.
  unfold run_kda_local, mbind, Py_bind, when, mret, Py_ret.
  destruct (run_command _ None w) as [w1 [[[rc out] err]|e|c]]; try done.
  by destruct (rc =? 0)%Z.
Qed.

Lemma generate_json_exit (template_path json_path : pystr) (w : world) :
  exits_with_1_only (generate_json template_path json_path w).2.
Proof.
  rewrite generate_json_run. intros c.
  destruct (run_command _ None w) as [w1 [[[rc out] err]|e|c0]] eqn:Hrun;
    [|discriminate|by destruct (run_command_no_exit _ _ _ _ _ Hrun)].
  repeat case_match; cbn; congruence.
Qed.

Lemma run_kda_local_exit (json_path url : pystr) (w : world) :
  exits_with_1_only (run_kda_local json_path url w).2.
Proof.
  rewrite run_kda_local_run. intros c.
  destruct (run_command _ None w) as [w1 [[[rc out] err]|e|c0]] eqn:Hrun;
    [|discriminate|by destruct (run_command_no_exit _ _ _ _ _ Hrun)].
  repeat case_match; cbn; congruence.
Qed.

Lemma parse_and_create_files_exit (text url : pystr) (w : world) :
  exits_with_1_only (parse_and_create_files text url w).2.
Proof.
  rewrite parse_and_create_files_run. intros c.
  destruct (json_loads text) as [e|data];
    [destruct (is_JSONDecodeError e); cbn; congruence|].
  destruct (py_in url data) as [[]|e|c0] eqn:Hin;
    [|cbn; congruence|discriminate|by destruct data].
  destruct (subscript data url) as [v|e|c0] eqn:Hsub;
    [|discriminate|unfold subscript in Hsub; repeat case_match; discriminate].
  destruct v; try (cbn; congruence).
  destruct (for_each l process_entry w) as [w' r] eqn:Hloop.
  cbn. intros ->.
  by destruct (for_each_no_exit process_entry l process_entry_no_exit w w' c).
Qed.

(** The clean-up always ends normally. *)
Lemma remove_temporary_files_run (json_file substituted_yaml_path : pystr)
    (w : world) :
  remove_temporary_files json_file substituted_yaml_path w =
  match os_remove json_file w with
  | (w1, Ok _) =>
      match os_remove substituted_yaml_path w1 with
      | (w2, Raise e) => (print_line (WarnCleanup e) w2, Ok tt)
      | other => other
      end
  | (w1, Raise e) => (print_line (WarnCleanup e) w1, Ok tt)
  | (w1, Exit c) => (w1, Exit c)
  end.
Proof.
  unfold remove_temporary_files, try_except, any_exception, mbind, Py_bind.
  destruct (os_remove json_file w) as [w1 [[]|e|c]]; done.
Qed.

Lemma os_remove_world (path : pystr) (w w1 : world) (r : result unit) :
  os_remove path w = (w1, r) ->
  (forall c, r <> Exit c)
  /\ (forall e, r = Raise e -> w1 = w)
  /\ w_stderr w1 = w_stderr w.
Proof.
  unfold os_remove. intros Hrun.
  repeat case_match; simplify_eq/=; done.
Qed.

Lemma remove_temporary_files_Ok (json_file substituted_yaml_path : pystr)
    (w : world) :
  exists w', remove_temporary_files json_file substituted_yaml_path w
             = (w', Ok tt).
Proof.
  rewrite remove_temporary_files_run.
  destruct (os_remove json_file w) as [w1 [[]|e|c]] eqn:Hrm1.
  - destruct (os_remove substituted_yaml_path w1) as [w2 [[]|e|c]] eqn:Hrm2;
      [by eexists..|].
    by destruct (os_remove_world _ _ _ _ Hrm2) as [Hno _]; destruct (Hno c).
  - by eexists.
  - by destruct (os_remove_world _ _ _ _ Hrm1) as [Hno _]; destruct (Hno c).
Qed.

(** [main] is the pipeline followed, when the pipeline returns, by the
    clean-up; an exit or an exception of the pipeline ends [main] at once. *)
Lemma main_run (args : arguments) (w : world) :
  main args w =
  match run_pipeline args (template_path_in (w_cwd w))
          (substituted_yaml_path_in (w_cwd w)) (json_file_in (w_cwd w)) w with
  | (w1, Ok _) =>
      remove_temporary_files (json_file_in (w_cwd w))
        (substituted_yaml_path_in (w_cwd w)) w1
  | (w1, Raise e) => (w1, Raise e)
  | (w1, Exit c) => (w1, Exit c)
  end.
Proof. reflexivity. Qed.

End WholeRun.

Section ExitCodes.
Context {db : UnicodeDB} {sh : Shell} {dec : JsonDecoder}.

(** The pipeline, stage by stage. *)
Lemma run_pipeline_run (args : arguments) (tp sp jf : pystr) (w : world) :
  run_pipeline args tp sp jf w =
  if bool_decide (is_Some (fs_files (w_fs w) !! tp)) then
    match read_file tp w with
    | (w0, Ok yaml) =>
        match write_file sp
                (JStr (substitute_placeholders yaml (substitutions_of args)))
                w0 with
        | (w1, Ok _) =>
            match generate_json sp jf w1 with
            | (w2, Ok _) =>
                match run_kda_local jf (network_url args) w2 with
                | (w3, Ok out) =>
                    parse_and_create_files out (network_url args) w3
                | (w3, Raise e) => (w3, Raise e)
                | (w3, Exit c) => (w3, Exit c)
                end
            | (w2, Raise e) => (w2, Raise e)
            | (w2, Exit c) => (w2, Exit c)
            end
        | (w1, Raise e) => (print_line (ErrWriteSubstituted e) w1, Exit 1)
        | (w1, Exit c) => (w1, Exit c)
        end
    | (w0, Raise e) => (print_line (ErrReadTemplate e) w0, Exit 1)
    | (w0, Exit c) => (w0, Exit c)
    end
  else (print_line (ErrTemplateMissing tp) w, Exit 1).
Proof.
  unfold run_pipeline, mbind, Py_bind, when, try_except, any_exception,
    mret, Py_ret.
  rewrite os_path_isfile_run.
  destruct (bool_decide (is_Some (fs_files (w_fs w) !! tp))); cbn [negb];
    [|done].
  destruct (read_file tp w) as [w0 [yaml|e|c]]; try done.
  destruct (write_file sp _ w0) as [w1 [[]|e|c]]; done.
Qed.

Lemma read_file_no_exit (path : pystr) (w w' : world) (c : Z) :
  read_file path w <> (w', Exit c).
Proof. unfold read_file. repeat case_match; discriminate. Qed.

Lemma run_pipeline_exit (args : arguments) (tp sp jf : pystr) (w : world) :
  exits_with_1_only (run_pipeline args tp sp jf w).2.
Proof.
  rewrite run_pipeline_run. intros c.
  destruct (bool_decide _); [|cbn; congruence].
  destruct (read_file tp w) as [w0 [yaml|e|c0]] eqn:Hrd;
    [|cbn; congruence|by destruct (read_file_no_exit _ _ _ _ Hrd)].
  destruct (write_file sp _ w0) as [w1 [[]|e|c0]] eqn:Hwr;
    [|cbn; congruence
     |by destruct (write_file_world _ _ _ _ _ Hwr) as (_&_&_&_&Hno&_);
         destruct (Hno c0)].
  pose proof (generate_json_exit sp jf w1) as Hgen.
  destruct (generate_json sp jf w1) as [w2 [[]|e|c0]];
    [|discriminate|cbn; intros [= <-]; by apply Hgen].
  pose proof (run_kda_local_exit jf (network_url args) w2) as Hloc.
  destruct (run_kda_local jf (network_url args) w2) as [w3 [out|e|c0]];
    [|discriminate|cbn; intros [= <-]; by apply Hloc].
  apply parse_and_create_files_exit.
Qed.

Lemma rendered_run (args : arguments) (w w1 : world) :
  rendered args w w1 ->
  run_pipeline args (template_path_in (w_cwd w))
    (substituted_yaml_path_in (w_cwd w)) (json_file_in (w_cwd w)) w =
  match generate_json (substituted_yaml_path_in (w_cwd w))
          (json_file_in (w_cwd w)) w1 with
  | (w2, Ok _) =>
      match run_kda_local (json_file_in (w_cwd w)) (network_url args) w2 with
      | (w3, Ok out) => parse_and_create_files out (network_url args) w3
      | (w3, Raise e) => (w3, Raise e)
      | (w3, Exit c) => (w3, Exit c)
      end
  | (w2, Raise e) => (w2, Raise e)
  | (w2, Exit c) => (w2, Exit c)
  end.
Proof.
  intros (yaml & Hfile & Hrd & Hwr). rewrite run_pipeline_run.
  rewrite os_path_isfile_run in Hfile. injection Hfile as ->.
  by rewrite Hrd, Hwr.
Qed.

Lemma generated_run (args : arguments) (w w2 : world) :
  generated args w w2 ->
  run_pipeline args (template_path_in (w_cwd w))
    (substituted_yaml_path_in (w_cwd w)) (json_file_in (w_cwd w)) w =
  match run_kda_local (json_file_in (w_cwd w)) (network_url args) w2 with
  | (w3, Ok out) => parse_and_create_files out (network_url args) w3
  | (w3, Raise e) => (w3, Raise e)
  | (w3, Exit c) => (w3, Exit c)
  end.
Proof.
  intros (w1 & out & err & Hr & Hgen & Hfile).
  rewrite (rendered_run _ _ _ Hr), generate_json_run, Hgen.
  rewrite os_path_isfile_run in Hfile. injection Hfile as ->.
  reflexivity.
Qed.

Lemma fetched_run (args : arguments) (w w3 : world) (out : pystr) :
  fetched args w w3 out ->
  run_pipeline args (template_path_in (w_cwd w))
    (substituted_yaml_path_in (w_cwd w)) (json_file_in (w_cwd w)) w =
  parse_and_create_files out (network_url args) w3.
Proof.
  intros (w2 & err & Hg & Hloc).
  by rewrite (generated_run _ _ _ Hg), run_kda_local_run, Hloc.
Qed.

(** Each fatal error of the list stops the pipeline with [sys.exit(1)]. *)
Lemma fatal_error_pipeline (args : arguments) (w w' : world) :
  fatal_error args w w' ->
  run_pipeline args (template_path_in (w_cwd w))
    (substituted_yaml_path_in (w_cwd w)) (json_file_in (w_cwd w)) w
  = (w', Exit 1).
Proof.
  intros Hfatal.
  destruct Hfatal as
    [Hfile | w1 e Hfile Hrd | yaml w1 e Hfile Hrd Hwr
    | w1 w2 rc out err Hr Hrun Hrc | w1 w2 out err Hr Hrun Hfile
    | w2 w3 rc out err Hg Hrun Hrc | w3 out Hf Hparse
    | w3 out m Hf Hparse Hkey | w3 out m v Hf Hparse Hkey Hlist].
  - rewrite run_pipeline_run.
    rewrite os_path_isfile_run in Hfile. by injection Hfile as ->.
  - rewrite run_pipeline_run.
    rewrite os_path_isfile_run in Hfile. injection Hfile as ->.
    by rewrite Hrd.
  - rewrite run_pipeline_run.
    rewrite os_path_isfile_run in Hfile. injection Hfile as ->.
    by rewrite Hrd, Hwr.
  - rewrite (rendered_run _ _ _ Hr), generate_json_run, Hrun.
    by apply Z.eqb_neq in Hrc as ->.
  - rewrite (rendered_run _ _ _ Hr), generate_json_run, Hrun.
    rewrite os_path_isfile_run in Hfile. by injection Hfile as ->.
  - rewrite (generated_run _ _ _ Hg), run_kda_local_run, Hrun.
    by apply Z.eqb_neq in Hrc as ->.
  - by rewrite (fetched_run _ _ _ _ Hf), parse_and_create_files_run, Hparse.
  - rewrite (fetched_run _ _ _ _ Hf), parse_and_create_files_run, Hparse.
    cbn [py_in]. rewrite Hkey.
    by rewrite bool_decide_eq_false_2 by (by intros [? ?]).
  - rewrite (fetched_run _ _ _ _ Hf), parse_and_create_files_run, Hparse.
    cbn [py_in subscript]. rewrite Hkey.
    rewrite bool_decide_eq_true_2 by (by eexists).
    by destruct v.
Qed.

End ExitCodes.

(** C6.  [main] ends the process with status 0 when it returns, which it
    does on full success (all stages done and the extractor returned), and
    with status 1 otherwise.  Each fatal error of the list (template missing,
    template unreadable, substituted file unwritable, nonzero return code of
    either tool call, missing output of the generate step, JSON that does not
    parse, missing network URL key, payload that is not a sequence) stops the
    run where it occurs with [sys.exit(1)].  In particular the generate step
    exits with 1 both when the tool returns nonzero and when the tool returns
    zero but the JSON file is not there afterwards. *)
Theorem exit_codes {db : UnicodeDB} {sh : Shell} {dec : JsonDecoder}
    (args : arguments) (w : world) :
  (forall w', fatal_error args w w' -> main args w = (w', Exit 1))
  /\ (forall w3 out w4,
        fetched args w w3 out ->
        parse_and_create_files out (network_url args) w3 = (w4, Ok tt) ->
        exists w5, main args w = (w5, Ok tt)
                   /\ exit_status (A := unit) (Ok tt) = 0%Z)
  /\ (forall w' r,
        main args w = (w', r) ->
        (r = Ok tt /\ exit_status r = 0%Z)
        \/ (r <> Ok tt /\ exit_status r = 1%Z))
  /\ (forall template_path json_path w0 w1 returncode out err,
        run_command (gen_command template_path json_path) None w0
        = (w1, Ok (returncode, out, err)) ->
        (returncode <> 0%Z ->
         generate_json template_path json_path w0
         = (print_line (ErrGenerateFailed err) w1, Exit 1))
        /\ (returncode = 0%Z ->
            fs_files (w_fs w1) !! json_path = None ->
            generate_json template_path json_path w0
            = (print_line ErrJsonNotCreated w1, Exit 1))).
Proof.
  split; [|split; [|split]].
  - intros w' Hfatal. rewrite main_run.
    by rewrite (fatal_error_pipeline _ _ _ Hfatal).
  - intros w3 out w4 Hf Hparse. rewrite main_run.
    rewrite (fetched_run _ _ _ _ Hf), Hparse.
    destruct (remove_temporary_files_Ok (json_file_in (w_cwd w))
                (substituted_yaml_path_in (w_cwd w)) w4) as [w5 ->].
    by exists w5.
  - intros w' r Hmain. rewrite main_run in Hmain.
    pose proof (run_pipeline_exit args (template_path_in (w_cwd w))
                  (substituted_yaml_path_in (w_cwd w))
                  (json_file_in (w_cwd w)) w) as Hexit.
    destruct (run_pipeline _ _ _ _ w) as [w1 [[]|e|c]].
    + destruct (remove_temporary_files_Ok (json_file_in (w_cwd w))
                  (substituted_yaml_path_in (w_cwd w)) w1) as [w5 Hrm].
      rewrite Hrm in Hmain. injection Hmain as _ <-. by left.
    + injection Hmain as _ <-. by right.
    + injection Hmain as _ <-. right. split; [done|].
      cbn. by apply Hexit.
  - intros tp jp w0 w1 rc out err Hrun. split.
    + intros Hrc. rewrite generate_json_run, Hrun.
      by apply Z.eqb_neq in Hrc as ->.
    + intros -> Hnone. rewrite generate_json_run, Hrun. cbn.
      rewrite bool_decide_eq_false_2; [done|].
      rewrite Hnone. by intros [? ?].
Qed.

(** Three runs with the default arguments: the tool is not installed, so the
    generate step is fatal; the template is missing; everything works, the
    module file is written and the temporary files are removed. *)
Lemma exit_codes_witness :
  main (sh := failing_shell) (db := ascii_only)
    (dec := decoder_of [] JNull) default_arguments template_world
  = (print_line (ErrGenerateFailed (str "kda: command not found"))
       (set_fs template_world
          (mk_fs {[str "/work"]}
             (<[str "/work/substituted_config.ktpl"
                := str "chain: 0 ns: n_9b079bebc8a0d688e4b2f4279a114148d6760edf"]>
                (fs_files (w_fs template_world))) ∅)),
     Exit 1)
  /\ main (sh := failing_shell) (db := ascii_only)
       (dec := decoder_of [] JNull) default_arguments fresh_world
     = (print_line (ErrTemplateMissing (str "/work/fetch-modules.ktpl"))
          fresh_world, Exit 1)
  /\ exists w5,
       main (sh := sample_shell (str "response")) (db := ascii_only)
         (dec := decoder_of (str "response") sample_response)
         default_arguments template_world = (w5, Ok tt).
Proof.
  pose (rendered_text :=
          str "chain: 0 ns: n_9b079bebc8a0d688e4b2f4279a114148d6760edf").
  pose (w1 := set_fs template_world
                (mk_fs {[str "/work"]}
                   (<[str "/work/substituted_config.ktpl" := rendered_text]>
                      (fs_files (w_fs template_world))) ∅)).
  assert (Hrendered : forall sh : Shell,
             rendered (db := ascii_only) default_arguments template_world w1).
  { intros sh. exists (str "chain: {{{chain}}} ns: {{{namespace}}}").
    repeat split; vm_compute; reflexivity. }
  split; [|split].
  - apply (exit_codes (sh := failing_shell) (db := ascii_only)
             (dec := decoder_of [] JNull) default_arguments template_world).
    apply (generate_tool_nonzero (sh := failing_shell) (db := ascii_only)
             default_arguments template_world w1 w1 127%Z []
             (str "kda: command not found")).
    + apply (Hrendered failing_shell).
    + vm_compute. reflexivity.
    + discriminate.
  - apply (exit_codes (sh := failing_shell) (db := ascii_only)
             (dec := decoder_of [] JNull) default_arguments fresh_world).
    apply (template_missing default_arguments fresh_world).
    vm_compute. reflexivity.
  - pose (sh := sample_shell (str "response")).
    pose (w2 := (run_command (sh := sh)
                   (gen_command (str "/work/substituted_config.ktpl")
                      (str "/work/temp_fetch_module_code.json")) None w1).1).
    pose (w4 := (parse_and_create_files
                   (dec := decoder_of (str "response") sample_response)
                   (str "response") (network_url default_arguments) w2).1).
    destruct (exit_codes (sh := sh) (db := ascii_only)
                (dec := decoder_of (str "response") sample_response)
                default_arguments template_world) as (_ & Hsuccess & _).
    destruct (Hsuccess w2 (str "response") w4) as (w5 & Hmain & _);
      [| |by exists w5].
    + exists w2, []. split; [|vm_compute; reflexivity].
      exists w1, [], []. split; [apply (Hrendered sh)|].
      split; vm_compute; reflexivity.
    + vm_compute. reflexivity.
Defined.

(** The successful run, evaluated: one module file, no temporary files left,
    nothing on the error stream. *)
Example full_run :
  main (sh := sample_shell (str "response")) (db := ascii_only)
    (dec := decoder_of (str "response") sample_response)
    default_arguments template_world
  = (mk_world (str "/work")
       (mk_fs {[str "ns.foo"; str "/work"]}
          (<[str "ns.foo/Thing.pact" := str "(module Thing)"]>
             (fs_files (w_fs template_world))) ∅) [],
     Ok tt).
Proof. vm_compute. reflexivity. Qed.

(** C10.  The two removals at the end of [main] are under one handler: when
    removing the generated JSON file fails, the removal of the substituted
    template is not attempted, so the file system is left as it was and the
    substituted template, if there, is still there; exactly one warning is
    printed; and [main] returns, so that the exit status stays 0. *)
Theorem cleanup_failure_skips_second_removal {db : UnicodeDB} {sh : Shell}
    {dec : JsonDecoder} (args : arguments) (w w3 w3' : world) (e : exn) :
  run_pipeline args (template_path_in (w_cwd w))
    (substituted_yaml_path_in (w_cwd w)) (json_file_in (w_cwd w)) w
  = (w3, Ok tt) ->
  os_remove (json_file_in (w_cwd w)) w3 = (w3', Raise e) ->
  remove_temporary_files (json_file_in (w_cwd w))
    (substituted_yaml_path_in (w_cwd w)) w3
  = (print_line (WarnCleanup e) w3, Ok tt)
  /\ main args w = (print_line (WarnCleanup e) w3, Ok tt)
  /\ w_fs (print_line (WarnCleanup e) w3) = w_fs w3
  /\ fs_files (w_fs (print_line (WarnCleanup e) w3))
       !! substituted_yaml_path_in (w_cwd w)
     = fs_files (w_fs w3) !! substituted_yaml_path_in (w_cwd w)
  /\ w_stderr (print_line (WarnCleanup e) w3) = w_stderr w3 ++ [WarnCleanup e]
  /\ exit_status (A := unit) (Ok tt) = 0%Z.
Proof.
  intros Hpipe Hrm.
  destruct (os_remove_world _ _ _ _ Hrm) as (_ & Hsame & _).
  rewrite (Hsame e eq_refl) in Hrm.
  assert (Hblock : remove_temporary_files (json_file_in (w_cwd w))
                     (substituted_yaml_path_in (w_cwd w)) w3
                   = (print_line (WarnCleanup e) w3, Ok tt))
    by (by rewrite remove_temporary_files_run, Hrm).
  split; [done|]. split; [by rewrite main_run, Hpipe|]. done.
Qed.

(** A run in which the tool deletes the request file it was given: the
    removal of the JSON file fails, the substituted template stays, and the
    run ends normally with one warning. *)
Lemma cleanup_failure_skips_second_removal_witness :
  main (sh := consuming_shell (str "response")) (db := ascii_only)
    (dec := decoder_of (str "response") sample_response)
    default_arguments template_world
  = (mk_world (str "/work")
       (mk_fs {[str "ns.foo"; str "/work"]}
          (<[str "ns.foo/Thing.pact" := str "(module Thing)"]>
             (<[str "/work/substituted_config.ktpl"
                := str "chain: 0 ns: n_9b079bebc8a0d688e4b2f4279a114148d6760edf"]>
                (fs_files (w_fs template_world)))) ∅)
       [WarnCleanup FileNotFoundError],
     Ok tt).
Proof.
  edestruct (cleanup_failure_skips_second_removal
               (sh := consuming_shell (str "response")) (db := ascii_only)
               (dec := decoder_of (str "response") sample_response)
               default_arguments template_world) as (_ & Hmain & _).
  - vm_compute. reflexivity.
  - vm_compute. reflexivity.
  - rewrite Hmain. vm_compute. reflexivity.
Defined.

(** * Part III: further properties of the code *)

(** ** The renderer *)

(** Lines 51-58.  A map that holds no key of word characters (the empty map
    first of all) leaves every template as it is: each match is replaced by
    its own text. *)
Theorem substitute_without_word_key {db : UnicodeDB}
    (subs : gmap pystr pystr) (text : pystr) :
  (forall k, word_key k = true -> subs !! k = None) ->
  substitute_placeholders text subs = text.
Proof.
  intros Hnone. remember (length text) as n eqn:Hn. revert text Hn.
  induction n as [n IH] using lt_wf_ind. intros text ->.
  rewrite substitute_unfold.
  destruct (match_at text) as [[k r]|] eqn:Hm.
  - pose proof (match_at_shorter _ _ _ Hm) as Hlt.
    apply match_at_Some in Hm as [-> Hk].
    unfold replacer. rewrite (Hnone k Hk). cbn [default].
    f_equal. by eapply IH.
  - destruct text as [|c text]; [done|]. f_equal.
    eapply IH; [|done]. simpl. lia.
Qed.

Lemma substitute_without_word_key_witness :
  substitute_placeholders (db := ascii_only)
    (str "chain: {{{chain}}} ns: {{{namespace}}}") ∅
  = str "chain: {{{chain}}} ns: {{{namespace}}}".
Proof.
  apply (substitute_without_word_key (db := ascii_only)).
  intros k _. apply lookup_empty.
Defined.

(** Lines 198-204 with 45-58.  With the map that [main] builds, an occurrence
    of [{{{chain}}}] becomes the chain argument, an occurrence of
    [{{{namespace}}}] the namespace argument, and an occurrence of any other
    placeholder stays as it is. *)
Theorem main_substitutes_chain_and_namespace {db : UnicodeDB}
    (args : arguments) (pre key post : pystr) :
  word_key key = true ->
  substitute_placeholders (pre ++ placeholder key ++ post)
    (substitutions_of args)
  = substitute_placeholders pre (substitutions_of args)
    ++ (if bool_decide (key = str "chain") then chain args
        else if bool_decide (key = str "namespace") then namespace args
        else placeholder key)
    ++ substitute_placeholders post (substitutions_of args).
Proof.
  intros Hkey. rewrite substitute_occurrence by done.
  f_equal. f_equal. unfold replacer, substitutions_of.
  destruct (bool_decide_reflect (key = str "chain")) as [->|Hc]; [done|].
  destruct (bool_decide_reflect (key = str "namespace")) as [->|Hn].
  - by rewrite lookup_insert_eq.
  - rewrite lookup_insert_ne by done. rewrite lookup_insert_ne by done.
    by rewrite lookup_empty.
Qed.

Lemma main_substitutes_chain_and_namespace_witness :
  substitute_placeholders (db := ascii_only)
    (str "ns: " ++ placeholder (str "namespace") ++ str " x: {{{other}}}")
    (substitutions_of default_arguments)
  = substitute_placeholders (db := ascii_only) (str "ns: ")
      (substitutions_of default_arguments)
    ++ namespace default_arguments
    ++ substitute_placeholders (db := ascii_only) (str " x: {{{other}}}")
         (substitutions_of default_arguments).
Proof.
  exact (main_substitutes_chain_and_namespace (db := ascii_only)
           default_arguments (str "ns: ") (str "namespace")
           (str " x: {{{other}}}") eq_refl).
Defined.

(** ** Names *)

Lemma rsplit1_app (sep : N) (a b : pystr) :
  sep ∉ b -> rsplit1 sep (a ++ sep :: b) = Some (a, b).
Proof.
  intros Hb%rsplit1_None. induction a as [|c a IH].
  - cbn [app rsplit1]. by rewrite Hb, N.eqb_refl.
  - change ((c :: a) ++ sep :: b) with (c :: a ++ sep :: b).
    cbn [rsplit1]. by rewrite IH.
Qed.

(** Lines 142-146.  Splitting undoes joining: a namespace and a leaf name
    without a dot, joined by a dot, split into that namespace and that leaf,
    whatever dots the namespace holds. *)
Theorem split_name_of_joined (ns leaf : pystr) :
  dot ∉ leaf -> split_name (ns ++ dot :: leaf) = (ns, leaf).
Proof. intros Hleaf. unfold split_name. by rewrite rsplit1_app. Qed.

Lemma split_name_of_joined_witness :
  split_name (str "free.util" ++ dot :: str "Guards")
  = (str "free.util", str "Guards").
Proof.
  apply split_name_of_joined.
  intros Hin. by repeat (apply elem_of_cons in Hin as [Hin|Hin];
                         [discriminate Hin|]); apply elem_of_nil in Hin.
Defined.

(** Lines 142-146.  The default leaf name collides with a real one: a name
    without a dot and the same name followed by [.KDA] get the same
    namespace and the same leaf name, hence the same file. *)
Theorem default_leaf_collides (name : pystr) :
  dot ∉ name ->
  split_name (name ++ str ".KDA") = split_name name
  /\ split_name name = (name, str "KDA").
Proof.
  intros Hname. assert (Hplain : split_name name = (name, str "KDA")).
  { unfold split_name. by apply rsplit1_None in Hname as ->. }
  split; [|done]. rewrite Hplain.
  change (str ".KDA") with (dot :: str "KDA").
  unfold split_name. rewrite rsplit1_app; [done|].
  intros Hin. by repeat (apply elem_of_cons in Hin as [Hin|Hin];
                         [discriminate Hin|]); apply elem_of_nil in Hin.
Qed.

Lemma default_leaf_collides_witness :
  split_name (str "coin" ++ str ".KDA") = split_name (str "coin")
  /\ split_name (str "coin") = (str "coin", str "KDA").
Proof.
  apply default_leaf_collides.
  intros Hin. by repeat (apply elem_of_cons in Hin as [Hin|Hin];
                         [discriminate Hin|]); apply elem_of_nil in Hin.
Defined.

(** ** What the loop over the modules can do *)

Lemma derive_names_raise (name : json) (e : exn) :
  derive_names name = Raise e -> e = TypeError \/ e = AttributeError.
Proof.
  destruct name as [|b|z|f|s|l|m];
    try (rewrite derive_names_str; by destruct (rsplit1 dot s) as [[??]|]);
    unfold derive_names, py_in; try (intros [= <-]; by left);
    case_match; (discriminate || (intros [= <-]; by right)).
Qed.

(** The three ways in which one turn of the loop over the modules ends:
    with an exception before anything was done, with one line on the error
    stream and nothing else, or after the directory was there and the file
    was opened. *)
Lemma process_module_cases (module : json) (w : world) :
  (exists e, (e = TypeError \/ e = AttributeError)
             /\ process_module module w = (w, Raise e))
  \/ (exists msg, process_module module w = (print_line msg w, Ok tt))
  \/ (exists ns leaf code w1 w2 r,
        os_makedirs (JStr ns) true w = (w1, Ok tt)
        /\ write_file (os_path_join ns (leaf ++ str ".pact")) code w1 = (w2, r)
        /\ process_module module w =
           match r with
           | Ok _ => (w2, Ok tt)
           | Raise e =>
               (print_line
                  (ErrWriteFile (os_path_join ns (leaf ++ str ".pact")) e) w2,
                Ok tt)
           | Exit c => (w2, Exit c)
           end).
Proof.
  destruct module as [|b|z|f|s|l|m];
    try (left; exists AttributeError; split; [by right|reflexivity]).
  pose (name := default JNull (m !! str "name")).
  pose (code := default JNull (m !! str "code")).
  destruct (negb (py_truthy name) || negb (py_truthy code)) eqn:Hskip.
  { right; left. exists WarnMissingNameOrCode.
    unfold process_module, mbind, Py_bind, lift, dict_get.
    fold name code. cbv beta iota. by rewrite Hskip. }
  apply orb_false_elim in Hskip as [Htn%negb_false_iff Htc%negb_false_iff].
  destruct (derive_names name) as [[ns leaf]|e|c] eqn:Hder.
  - rewrite (process_module_run (JObj m) name code ns leaf w
               eq_refl eq_refl Htn Htc Hder).
    destruct (os_makedirs ns true w) as [w1 [[]|e|c]] eqn:Hmk.
    + destruct ns as [| | | |s| |]; try discriminate Hmk.
      cbn [module_filename].
      destruct (write_file (os_path_join s (leaf ++ str ".pact")) code w1)
        as [w2 r] eqn:Hwr.
      right; right. exists s, leaf, code, w1, w2, r.
      split; [done|]. split; [done|]. by destruct r as [[]| |].
    + right; left. exists (ErrMakeDirectory ns e).
      apply os_makedirs_world in Hmk as (_&_&_&_&Hsame&_).
      by rewrite (Hsame e eq_refl).
    + apply os_makedirs_world in Hmk as (_&_&_&_&_&Hno). by destruct (Hno c).
  - left. exists e. split; [by apply (derive_names_raise name)|].
    unfold process_module, mbind, Py_bind, lift, dict_get.
    fold name code. cbv beta iota. rewrite Htn, Htc. cbn [negb orb].
    by rewrite Hder.
  - by destruct (derive_names_no_exit name c).
Qed.

Lemma pact_path_join (ns leaf : pystr) :
  pact_path (os_path_join ns (leaf ++ str ".pact")).
Proof.
  unfold pact_path, os_path_join.
  destruct (starts_with slash (leaf ++ str ".pact")); [by exists leaf|].
  destruct (match ns with [] => true | _ => ends_with slash ns end).
  - exists (ns ++ leaf). by rewrite <- app_assoc.
  - exists (ns ++ slash :: leaf). by rewrite <- app_assoc.
Qed.

Lemma only_adds_pact_files_refl (w : world) : only_adds_pact_files w w.
Proof.
  repeat split; try done. exists []. by rewrite app_nil_r.
Qed.

Lemma only_adds_pact_files_trans (w1 w2 w3 : world) :
  only_adds_pact_files w1 w2 -> only_adds_pact_files w2 w3 ->
  only_adds_pact_files w1 w3.
Proof.
  intros (Hc1 & Hd1 & Hs1 & Hk1 & Hf1 & l1 & Hl1)
         (Hc2 & Hd2 & Hs2 & Hk2 & Hf2 & l2 & Hl2).
  split; [congruence|]. split; [congruence|]. split; [set_solver|].
  split; [auto|]. split; [intros p Hp; by rewrite Hf2, Hf1|].
  exists (l1 ++ l2). by rewrite Hl2, Hl1, app_assoc.
Qed.

Lemma only_adds_pact_files_print (msg : message) (w : world) :
  only_adds_pact_files w (print_line msg w).
Proof. repeat split; try done. by exists [msg]. Qed.

Lemma write_file_files (filename : pystr) (content : json) (w w2 : world)
    (r : result unit) :
  write_file filename content w = (w2, r) ->
  fs_files (w_fs w2) = fs_files (w_fs w)
  \/ exists text, fs_files (w_fs w2) = <[filename := text]> (fs_files (w_fs w)).
Proof.
  unfold write_file. repeat case_match; intros [= <- _]; eauto.
Qed.

Lemma process_module_frame (module : json) (w : world) :
  only_adds_pact_files w (process_module module w).1.
Proof.
  destruct (process_module_cases module w)
    as [(e & _ & ->)|[(msg & ->)|(ns & leaf & code & w1 & w2 & r
                                  & Hmk & Hwr & ->)]].
  - apply only_adds_pact_files_refl.
  - apply only_adds_pact_files_print.
  - assert (only_adds_pact_files w w2) as Hw2.
    { pose proof (write_file_files _ _ _ _ _ Hwr) as Hfiles.
      apply write_file_world in Hwr as (He2 & Hc2 & Hs2 & Hd2 & _).
      pose proof (os_makedirs_world _ _ _ _ _ Hmk) as (_ & Hc1 & _ & Hd1 & _).
      apply os_makedirs_Ok in Hmk as (_ & _ & Hs1 & Hf1 & He1).
      split; [congruence|]. split; [congruence|].
      split; [rewrite Hs2, Hs1; set_solver|].
      rewrite Hf1 in Hfiles.
      split; [|split].
      - intros p Hp. destruct Hfiles as [->|[text ->]]; [done|].
        destruct (decide (os_path_join ns (leaf ++ str ".pact") = p))
          as [<-|Hne]; [by rewrite lookup_insert_eq|].
        by rewrite lookup_insert_ne.
      - intros p Hp. destruct Hfiles as [->|[text ->]]; [done|].
        rewrite lookup_insert_ne; [done|]. intros <-.
        apply Hp, pact_path_join.
      - exists []. rewrite app_nil_r. congruence. }
    destruct r as [[]|e|c]; cbn [fst]; [done| |done].
    eapply only_adds_pact_files_trans; [exact Hw2|].
    apply only_adds_pact_files_print.
Qed.

Lemma process_module_raise (module : json) (w w' : world) (e : exn) :
  process_module module w = (w', Raise e) ->
  (e = TypeError \/ e = AttributeError) /\ w' = w.
Proof.
  destruct (process_module_cases module w)
    as [(e0 & He0 & ->)|[(msg & ->)|(ns & leaf & code & w1 & w2 & r
                                     & Hmk & Hwr & ->)]].
  - by intros [= <- <-].
  - discriminate.
  - by destruct r as [[]|e1|c].
Qed.

Lemma process_module_one_message (module : json) (w : world) :
  exists printed,
    w_stderr (process_module module w).1 = w_stderr w ++ printed
    /\ (length printed <= 1)%nat.
Proof.
  destruct (process_module_cases module w)
    as [(e & _ & ->)|[(msg & ->)|(ns & leaf & code & w1 & w2 & r
                                  & Hmk & Hwr & ->)]].
  - exists []. by rewrite app_nil_r; cbn; split; [|lia].
  - exists [msg]. by split.
  - apply write_file_world in Hwr as (He2 & _).
    apply os_makedirs_Ok in Hmk as (_ & _ & _ & _ & He1).
    destruct r as [[]|e|c]; cbn [fst].
    + exists []. rewrite app_nil_r. split; [congruence|cbn; lia].
    + eexists. rewrite print_line_stderr, He2, He1. by split.
    + exists []. rewrite app_nil_r. split; [congruence|cbn; lia].
Qed.

Lemma for_each_frame {A} (body : A -> Py unit) (l : list A) :
  (forall x w, only_adds_pact_files w (body x w).1) ->
  forall w, only_adds_pact_files w (for_each l body w).1.
Proof.
  intros Hbody. induction l as [|x l IH]; intros w.
  - apply only_adds_pact_files_refl.
  - rewrite for_each_cons. pose proof (Hbody x w) as Hx.
    destruct (body x w) as [w1 [[]|e|c]]; cbn [fst] in *; [|done|done].
    eapply only_adds_pact_files_trans; [exact Hx|apply IH].
Qed.

Lemma for_each_raise {A} (body : A -> Py unit) (l : list A)
    (P : exn -> Prop) :
  (forall x w w' e, body x w = (w', Raise e) -> P e) ->
  forall w w' e, for_each l body w = (w', Raise e) -> P e.
Proof.
  intros Hbody. induction l as [|x l IH]; intros w w' e; [discriminate|].
  rewrite for_each_cons.
  destruct (body x w) as [w1 [[]|e1|c]] eqn:Hx; [apply IH| |discriminate].
  intros [= <- <-]. by eapply Hbody.
Qed.

Lemma process_entry_frame (entry : json) (w : world) :
  only_adds_pact_files w (process_entry entry w).1.
Proof.
  rewrite process_entry_run.
  destruct (entry_data entry) as [v|e|c];
    [destruct v|destruct e|];
    try apply only_adds_pact_files_print;
    try apply only_adds_pact_files_refl.
  apply for_each_frame, process_module_frame.
Qed.

Lemma entry_data_raise (entry : json) (e : exn) :
  entry_data entry = Raise e -> e = TypeError \/ exists k, e = KeyError k.
Proof.
  unfold entry_data, subscript.
  repeat case_match; simplify_eq; intros [= <-]; eauto.
Qed.

Lemma process_entry_raise (entry : json) (w w' : world) (e : exn) :
  process_entry entry w = (w', Raise e) ->
  e = TypeError \/ e = AttributeError.
Proof.
  rewrite process_entry_run.
  destruct (entry_data entry) as [v|e0|c] eqn:Hd.
  - destruct v; try discriminate.
    intros Hloop.
    refine (for_each_raise process_module _
              (fun e => e = TypeError \/ e = AttributeError) _ _ _ _ Hloop).
    intros x w0 w1 e1 Hx.
    by apply process_module_raise in Hx as [Hx _].
  - apply entry_data_raise in Hd as [->|[k ->]]; [|discriminate].
    intros [= _ <-]. by left.
  - discriminate.
Qed.

Lemma parse_and_create_files_frame {dec : JsonDecoder} (text url : pystr)
    (w : world) :
  only_adds_pact_files w (parse_and_create_files text url w).1.
Proof.
  rewrite parse_and_create_files_run.
  destruct (json_loads text) as [e|data];
    [destruct (is_JSONDecodeError e);
     [apply only_adds_pact_files_print|apply only_adds_pact_files_refl]|].
  destruct (py_in url data) as [[]|e|c];
    try apply only_adds_pact_files_print;
    try apply only_adds_pact_files_refl.
  destruct (subscript data url) as [v|e|c];
    [destruct v| |];
    try apply only_adds_pact_files_print;
    try apply only_adds_pact_files_refl.
  apply for_each_frame, process_entry_frame.
Qed.

Lemma not_pact_path (a b : pystr) (c : N) :
  c <> 116%N -> ~ pact_path (a ++ b ++ [c]).
Proof.
  intros Hc [k Hk].
  assert (last (a ++ b ++ [c]) = last (k ++ str ".pact")) as Hlast
    by by rewrite Hk.
  rewrite !app_assoc, last_snoc in Hlast.
  change (str ".pact") with (str ".pac" ++ [116%N]) in Hlast.
  rewrite app_assoc, last_snoc in Hlast. congruence.
Qed.

(** Lines 91-169.  Whatever the response text is and however the call
    ends, the extractor removes no file and no directory, leaves the
    working directory and the content of every file whose path does not end
    with [.pact] as they were, and only appends to the error stream. *)
Theorem extractor_only_adds_pact_files {dec : JsonDecoder} (text url : pystr)
    (w : world) :
  only_adds_pact_files w (parse_and_create_files text url w).1.
Proof. apply parse_and_create_files_frame. Qed.

(** Lines 91-169 with 176-178.  No module name makes the extractor touch the
    template or one of the two temporary files of [main]: whatever the
    working directory, the three paths hold after the call what they held
    before it. *)
Theorem extractor_keeps_template_and_temporary_files {dec : JsonDecoder}
    (text url cwd : pystr) (w : world) :
  let w' := (parse_and_create_files text url w).1 in
  fs_files (w_fs w') !! template_path_in cwd
  = fs_files (w_fs w) !! template_path_in cwd
  /\ fs_files (w_fs w') !! substituted_yaml_path_in cwd
     = fs_files (w_fs w) !! substituted_yaml_path_in cwd
  /\ fs_files (w_fs w') !! json_file_in cwd
     = fs_files (w_fs w) !! json_file_in cwd.
Proof.
  intros w'.
  destruct (parse_and_create_files_frame text url w)
    as (_ & _ & _ & _ & Hkeep & _). fold w' in Hkeep.
  unfold template_path_in, substituted_yaml_path_in, json_file_in.
  rewrite !os_path_join_relative by done.
  repeat split; apply Hkeep.
  - change (str "fetch-modules.ktpl")
      with (str "fetch-modules.ktp" ++ [108%N]).
    by apply not_pact_path.
  - change (str "substituted_config.ktpl")
      with (str "substituted_config.ktp" ++ [108%N]).
    by apply not_pact_path.
  - change (str "temp_fetch_module_code.json")
      with (str "temp_fetch_module_code.jso" ++ [110%N]).
    by apply not_pact_path.
Qed.

(** Lines 91-169.  An exception leaves the extractor in two ways only.
    Either [json.loads] raised it and it is not a [JSONDecodeError] (line 97
    catches nothing else), and then nothing was printed or written; or the
    text was decoded and the exception is a [TypeError] or an
    [AttributeError], raised by a JSON value of another shape than the code
    expects: a [KeyError] and every error of the file system are caught
    inside, and [rsplit] always gives two parts when it is called. *)
Theorem extractor_escaping_exceptions {dec : JsonDecoder}
    (text url : pystr) (w w' : world) (e : exn) :
  parse_and_create_files text url w = (w', Raise e) ->
  (json_loads text = inl e /\ e <> JSONDecodeError /\ w' = w)
  \/ (exists data, json_loads text = inr data
                   /\ (e = TypeError \/ e = AttributeError)).
Proof.
  rewrite parse_and_create_files_run.
  destruct (json_loads text) as [e0|data].
  { destruct e0; try discriminate; intros [= <- <-]; left; by repeat split. }
  intros Hrun. right. exists data. split; [done|]. revert Hrun.
  destruct (py_in url data) as [[]|e0|c] eqn:Hin; try discriminate.
  - destruct (subscript data url) as [v|e0|c] eqn:Hsub.
    + destruct v; try discriminate.
      intros Hloop.
      refine (for_each_raise process_entry _
                (fun e => e = TypeError \/ e = AttributeError) _ _ _ _ Hloop).
      intros x w0 w1 e1. apply process_entry_raise.
    + intros [= _ <-]. unfold subscript, py_in in *.
      destruct data; try (injection Hsub as <-; by left).
      injection Hin as Hin. apply bool_decide_eq_true in Hin as [v Hv].
      by rewrite Hv in Hsub.
    + discriminate.
  - intros [= _ <-]. unfold py_in in Hin.
    destruct data; try discriminate; injection Hin as <-; by left.
Qed.

Lemma extractor_escaping_exceptions_witness :
  (json_loads (JsonDecoder := raising_decoder ValueError) (str "1e") = inl ValueError
   /\ ValueError <> JSONDecodeError /\ fresh_world = fresh_world)
  \/ (exists data,
        json_loads (JsonDecoder := raising_decoder ValueError) (str "1e")
        = inr data
        /\ (ValueError = TypeError \/ ValueError = AttributeError)).
Proof.
  apply (extractor_escaping_exceptions (dec := raising_decoder ValueError)
           (str "1e") (str "u") fresh_world fresh_world ValueError).
  vm_compute. reflexivity.
Defined.

(** Lines 130-169.  The loop over the modules of an entry calls [print] at
    most once per module: what it adds to the error stream is at most one
    message per module (a message of line 152 or 166 has a line break in it,
    so this is a count of messages and not of lines). *)
Theorem at_most_one_message_per_module (modules : list json) (w : world) :
  exists printed : list message,
    w_stderr (for_each modules process_module w).1 = w_stderr w ++ printed
    /\ (length printed <= length modules)%nat.
Proof.
  revert w. induction modules as [|module modules IH]; intros w.
  - exists []. by rewrite app_nil_r.
  - rewrite for_each_cons.
    destruct (process_module_one_message module w) as (l1 & Hl1 & Hn1).
    destruct (process_module module w) as [w1 [[]|e|c]]; cbn [fst] in *.
    + destruct (IH w1) as (l2 & Hl2 & Hn2). exists (l1 ++ l2).
      rewrite Hl2, Hl1, app_assoc. split; [done|].
      rewrite length_app. cbn [length]. lia.
    + exists l1. split; [done|]. cbn [length]. lia.
    + exists l1. split; [done|]. cbn [length]. lia.
Qed.

(** ** Names and codes of another type *)

Lemma process_module_abort (m : gmap pystr json) (name code : json)
    (e : exn) (w : world) :
  m !! str "name" = Some name -> m !! str "code" = Some code ->
  py_truthy name = true -> py_truthy code = true ->
  derive_names name = Raise e ->
  process_module (JObj m) w = (w, Raise e).
Proof.
  intros Hn Hc Htn Htc Hder.
  unfold process_module, mbind, Py_bind, lift, dict_get.
  rewrite Hn, Hc. cbn [from_option id]. cbv beta iota. rewrite Htn, Htc.
  cbn [negb orb]. by rewrite Hder.
Qed.

(** Lines 131-156.  The check of line 134 lets every truthy name pass.  A
    name that is not a string and cannot be searched (a number, [true]) ends
    the run with the [TypeError] of line 142; a list or an object that holds
    ["."] ends it with the [AttributeError] of line 143; a list or an object
    that does not is taken as the namespace, the directory creation fails
    with a [TypeError], and the module is reported and skipped. *)
Theorem module_name_not_a_string (m : gmap pystr json) (name code : json)
    (w : world) :
  m !! str "name" = Some name -> m !! str "code" = Some code ->
  py_truthy name = true -> py_truthy code = true ->
  is_str name = false ->
  process_module (JObj m) w =
  match py_in [dot] name with
  | Ok true => (w, Raise AttributeError)
  | Ok false => (print_line (ErrMakeDirectory name TypeError) w, Ok tt)
  | _ => (w, Raise TypeError)
  end.
Proof.
  intros Hn Hc Htn Htc Hstr.
  destruct (derive_names name) as [[ns leaf]|e|c] eqn:Hder.
  - rewrite (process_module_run (JObj m) name code ns leaf w);
      [|unfold dict_get; by rewrite ?Hn, ?Hc..|done|done|done].
    unfold derive_names in Hder.
    destruct (py_in [dot] name) as [[]|e|c]; [|injection Hder as <- <-|done..].
    + by destruct name.
    + by destruct name.
  - rewrite (process_module_abort m name code e w Hn Hc Htn Htc Hder).
    unfold derive_names in Hder.
    destruct (py_in [dot] name) as [[]|e0|c] eqn:Hin; [|done| |done].
    + destruct name; try discriminate; by injection Hder as <-.
    + injection Hder as <-. unfold py_in in Hin.
      destruct name; try discriminate; by injection Hin as <-.
  - by destruct (derive_names_no_exit name c).
Qed.

Lemma module_name_not_a_string_witness :
  process_module
    (JObj {[ str "name" := JList [JStr (str "coin")];
             str "code" := JStr (str "(module coin)") ]}) fresh_world
  = (print_line (ErrMakeDirectory (JList [JStr (str "coin")]) TypeError)
       fresh_world, Ok tt).
Proof.
  exact (module_name_not_a_string
           {[ str "name" := JList [JStr (str "coin")];
              str "code" := JStr (str "(module coin)") ]}
           (JList [JStr (str "coin")]) (JStr (str "(module coin)"))
           fresh_world eq_refl eq_refl eq_refl eq_refl eq_refl).
Defined.

(** Lines 131-169.  The check of line 134 lets every truthy code pass.  For
    a code that is not a string and a leaf name without a slash (so that the
    file is wanted in the namespace directory itself), when the directory
    creation succeeds and the file can be opened for writing (writing the
    empty text to it would succeed), [open] creates the file, or empties the
    one that was there, before [write] raises its [TypeError]: the module
    leaves an empty file behind, the failure is reported, and the loop goes
    on. *)
Theorem module_code_not_a_string (m : gmap pystr json)
    (name ns leaf : pystr) (code : json) (w w1 w2 : world) :
  m !! str "name" = Some (JStr name) -> m !! str "code" = Some code ->
  name <> [] -> py_truthy code = true -> is_str code = false ->
  split_name name = (ns, leaf) ->
  slash ∉ leaf ->
  os_makedirs (JStr ns) true w = (w1, Ok tt) ->
  write_file (os_path_join ns (leaf ++ str ".pact")) (JStr []) w1
  = (w2, Ok tt) ->
  process_module (JObj m) w
  = (print_line
       (ErrWriteFile (os_path_join ns (leaf ++ str ".pact")) TypeError) w2,
     Ok tt)
  /\ fs_files (w_fs w2)
     = <[os_path_join ns (leaf ++ str ".pact") := []]> (fs_files (w_fs w))
  /\ os_path_join ns (leaf ++ str ".pact")
     = dir_prefix ns ++ leaf ++ str ".pact".
Proof.
  intros Hn Hc Hne Htc Hstr Hsplit Hleaf Hmk Hwr.
  pose proof (derive_names_split name) as Hder.
  rewrite Hsplit in Hder. cbn [fst snd] in Hder.
  split; [|split].
  - rewrite (process_module_run (JObj m) (JStr name) code (JStr ns) leaf w);
      [|unfold dict_get; by rewrite ?Hn, ?Hc..|by destruct name|done|done].
    rewrite Hmk. cbn [module_filename]. revert Hwr. unfold write_file.
    destruct (bool_decide (os_path_join ns (leaf ++ str ".pact") = []));
      [discriminate|].
    destruct (bool_decide (os_path_join ns (leaf ++ str ".pact")
                           ∈ fs_dirs (w_fs w1))); [discriminate|].
    destruct (bool_decide (os_path_join ns (leaf ++ str ".pact")
                           ∈ fs_denied (w_fs w1))); [discriminate|].
    intros [= <-]. by destruct code.
  - apply os_makedirs_Ok in Hmk as (_ & _ & _ & Hfiles & _).
    apply write_file_world in Hwr as (_ & _ & _ & _ & _ & Hok).
    destruct (Hok eq_refl) as (text & [= <-] & ->). by rewrite Hfiles.
  - apply os_path_join_relative. destruct leaf as [|c leaf]; [done|].
    cbn. apply N.eqb_neq. intros ->. apply Hleaf. by left.
Qed.

Lemma module_code_not_a_string_witness :
  let w1 := (os_makedirs (JStr (str "free")) true fresh_world).1 in
  let w2 := with_file (str "free/coin.pact") [] w1 in
  process_module
    (JObj {[ str "name" := JStr (str "free.coin");
             str "code" := JInt 7 ]}) fresh_world
  = (print_line (ErrWriteFile (str "free/coin.pact") TypeError) w2, Ok tt)
  /\ fs_files (w_fs w2) = {[ str "free/coin.pact" := [] ]}.
Proof.
  intros w1 w2.
  assert (Hname : str "free.coin" <> []) by discriminate.
  assert (Hleaf : slash ∉ str "coin").
  { apply (bool_decide_eq_false_1 (_ ∈ _)). vm_compute. reflexivity. }
  pose proof (module_code_not_a_string
                {[ str "name" := JStr (str "free.coin");
                   str "code" := JInt 7 ]}
                (str "free.coin") (str "free") (str "coin") (JInt 7)
                fresh_world w1 w2 eq_refl eq_refl Hname eq_refl eq_refl
                eq_refl Hleaf eq_refl eq_refl) as (Hrun & Hfiles & _).
  split; [exact Hrun|]. rewrite Hfiles. vm_compute. reflexivity.
Defined.

(** ** Two modules for one file *)

(** Lines 130-169.  Two well-formed modules whose names give the same
    namespace and the same leaf name are written to the same file; when both
    are processed without a report, the file holds the code of the second:
    the last write wins, silently. *)
Theorem same_file_last_write_wins (m1 m2 : gmap pystr json)
    (name1 code1 name2 code2 ns leaf : pystr) (w w' : world) :
  m1 !! str "name" = Some (JStr name1) ->
  m1 !! str "code" = Some (JStr code1) ->
  name1 <> [] -> code1 <> [] ->
  m2 !! str "name" = Some (JStr name2) ->
  m2 !! str "code" = Some (JStr code2) ->
  name2 <> [] -> code2 <> [] ->
  split_name name1 = (ns, leaf) ->
  split_name name2 = (ns, leaf) ->
  for_each [JObj m1; JObj m2] process_module w = (w', Ok tt) ->
  w_stderr w' = w_stderr w ->
  fs_files (w_fs w')
  = <[os_path_join ns (leaf ++ str ".pact") := code2]> (fs_files (w_fs w)).
Proof.
  intros Hn1 Hc1 Hne1 Hce1 Hn2 Hc2 Hne2 Hce2 Hs1 Hs2 Hrun Hquiet.
  rewrite for_each_cons in Hrun.
  destruct (process_module (JObj m1) w) as [wa [[]|e|c]] eqn:Hrun1;
    [|discriminate..].
  rewrite for_each_cons in Hrun.
  destruct (process_module (JObj m2) wa) as [wb [[]|e|c]] eqn:Hrun2;
    [|discriminate..].
  injection Hrun as ->.
  destruct (process_module_stderr _ _ _ _ Hrun1) as [l1 Hl1].
  destruct (process_module_stderr _ _ _ _ Hrun2) as [l2 Hl2].
  assert (l1 = [] /\ l2 = []) as [-> ->].
  { rewrite Hl2, Hl1, <- app_assoc in Hquiet.
    apply (f_equal length) in Hquiet. rewrite !length_app in Hquiet.
    destruct l1, l2; simpl in Hquiet; try lia. done. }
  rewrite app_nil_r in Hl1, Hl2.
  destruct (process_module_quiet _ _ _ _ _ _ _ _ Hn1 Hc1 Hne1 Hce1 Hs1 Hrun1 Hl1)
    as (w1 & Hmk1 & Hwr1).
  destruct (process_module_quiet _ _ _ _ _ _ _ _ Hn2 Hc2 Hne2 Hce2 Hs2 Hrun2 Hl2)
    as (w2 & Hmk2 & Hwr2).
  apply os_makedirs_Ok in Hmk1 as (_ & _ & _ & Hf1 & _).
  apply os_makedirs_Ok in Hmk2 as (_ & _ & _ & Hf2 & _).
  apply write_file_world in Hwr1 as (_ & _ & _ & _ & _ & Hok1).
  apply write_file_world in Hwr2 as (_ & _ & _ & _ & _ & Hok2).
  destruct (Hok1 eq_refl) as (? & [= <-] & Hfa).
  destruct (Hok2 eq_refl) as (? & [= <-] & Hfb).
  by rewrite Hfb, Hf2, Hfa, Hf1, insert_insert_eq.
Qed.

Lemma same_file_last_write_wins_witness :
  fs_files (w_fs (for_each [module_of (str "coin") (str "(module a)");
                            module_of (str "coin.KDA") (str "(module b)")]
                    process_module fresh_world).1)
  = <[os_path_join (str "coin") (str "KDA" ++ str ".pact")
      := str "(module b)"]> (fs_files (w_fs fresh_world)).
Proof.
  refine (same_file_last_write_wins
            {[ str "name" := JStr (str "coin");
               str "code" := JStr (str "(module a)") ]}
            {[ str "name" := JStr (str "coin.KDA");
               str "code" := JStr (str "(module b)") ]}
            (str "coin") (str "(module a)") (str "coin.KDA")
            (str "(module b)") (str "coin") (str "KDA") fresh_world _
            eq_refl eq_refl _ _ eq_refl eq_refl _ _ eq_refl eq_refl _ _);
    try discriminate.
  - vm_compute. reflexivity.
  - vm_compute. reflexivity.
Defined.

(** ** Entries and documents *)

(** Lines 115-130.  The grouping of the modules into entries has no effect
    of its own: when [body.result.data] is a list in every entry, the loop
    over the entries is the loop over all their modules, in the order of the
    response. *)
Theorem entries_are_flattened (entries : list json)
    (modules : list (list json)) (w : world) :
  Forall2 (fun entry ms => entry_data entry = Ok (JList ms)) entries modules ->
  for_each entries process_entry w
  = for_each (concat modules) process_module w.
Proof.
  intros Hall. revert w.
  induction Hall as [|entry ms entries modules Hentry _ IH]; intros w;
    [done|].
  rewrite for_each_cons, process_entry_run, Hentry.
  cbn [concat]. rewrite for_each_app.
  destruct (for_each ms process_module w) as [w1 [[]|e|c]]; [apply IH|done..].
Qed.

Lemma entries_are_flattened_witness :
  for_each [entry_of (JList [module_of (str "a.x") (str "1")]);
            entry_of (JList []);
            entry_of (JList [module_of (str "b.y") (str "2")])]
    process_entry fresh_world
  = for_each [module_of (str "a.x") (str "1");
              module_of (str "b.y") (str "2")] process_module fresh_world.
Proof.
  apply (entries_are_flattened
           [entry_of (JList [module_of (str "a.x") (str "1")]);
            entry_of (JList []);
            entry_of (JList [module_of (str "b.y") (str "2")])]
           [[module_of (str "a.x") (str "1")]; [];
            [module_of (str "b.y") (str "2")]]).
  repeat constructor.
Defined.

Lemma is_substring_app (needle pre post : pystr) :
  is_substring needle (pre ++ needle ++ post) = true.
Proof.
  induction pre as [|c pre IH].
  - cbn [app]. destruct (needle ++ post) eqn:Heq; cbn [is_substring];
      rewrite <- ?Heq, strip_prefix_app; [|done].
    destruct needle; [done|discriminate].
  - change ((c :: pre) ++ needle ++ post) with (c :: pre ++ needle ++ post).
    cbn [is_substring]. rewrite IH. by case_match.
Qed.

(** Lines 102-109.  The test of line 102 is Python's [in], which also holds
    for a list that has the URL among its elements and for a string in which
    the URL occurs; line 109 then subscripts that value with the URL, and the
    run ends with a [TypeError], with nothing printed by the script and
    nothing written. *)
Theorem url_found_in_non_object {dec : JsonDecoder} (text url : pystr)
    (data : json) (w : world) :
  json_loads text = inr data ->
  (exists l, data = JList l /\ JStr url ∈ l)
  \/ (exists pre post, data = JStr (pre ++ url ++ post)) ->
  parse_and_create_files text url w = (w, Raise TypeError).
Proof.
  intros Hload Hshape. rewrite parse_and_create_files_run, Hload.
  destruct Hshape as [(l & -> & Hin)|(pre & post & ->)]; cbn [py_in].
  - assert (existsb (fun x => match x with
                              | JStr s => bool_decide (s = url)
                              | _ => false
                              end) l = true) as ->; [|done].
    apply existsb_exists. exists (JStr url).
    split; [by apply list_elem_of_In|by apply bool_decide_eq_true].
  - by rewrite is_substring_app.
Qed.

Lemma url_found_in_non_object_witness :
  parse_and_create_files (dec := decoder_of (str "x") (JList [JStr (str "u")]))
    (str "x") (str "u") fresh_world
  = (fresh_world, Raise TypeError).
Proof.
  apply (url_found_in_non_object
           (dec := decoder_of (str "x") (JList [JStr (str "u")]))
           (str "x") (str "u") (JList [JStr (str "u")]) fresh_world eq_refl).
  left. exists [JStr (str "u")]. split; [done|]. by left.
Defined.

(** ** The two calls of the tool *)

(** Lines 61-74.  [generate_json] returns exactly when the tool ended with
    return code 0 and the output file is there afterwards; the world it
    returns in is the one the tool left, with nothing printed. *)
Theorem generate_json_returns_iff {sh : Shell}
    (template_path json_path : pystr) (w w' : world) :
  generate_json template_path json_path w = (w', Ok tt)
  <-> (exists out err,
         run_command (gen_command template_path json_path) None w
         = (w', Ok (0%Z, out, err)))
      /\ is_Some (fs_files (w_fs w') !! json_path).
Proof.
  rewrite generate_json_run.
  destruct (run_command (gen_command template_path json_path) None w)
    as [w1 [[[rc out] err]|e|c]] eqn:Hrun.
  - destruct (Z.eqb_spec rc 0) as [->|Hrc].
    + destruct (bool_decide_reflect
                  (is_Some (fs_files (w_fs w1) !! json_path))) as [Hin|Hout].
      * split; [intros [= <-]; eauto|]. by intros [(? & ? & [= <- _ _]) _].
      * split; [discriminate|]. by intros [(? & ? & [= <- _ _]) Hin].
    + split; [discriminate|]. intros [(? & ? & [= _ Hz _ _]) _]. done.
  - split; [discriminate|]. by intros [(? & ? & ?) _].
  - split; [discriminate|]. by intros [(? & ? & ?) _].
Qed.

(** Lines 77-88.  [run_kda_local] returns a text exactly when the tool ended
    with return code 0 and that text on its standard output; it looks at no
    file and prints nothing. *)
Theorem run_kda_local_returns_iff {sh : Shell}
    (json_path url out : pystr) (w w' : world) :
  run_kda_local json_path url w = (w', Ok out)
  <-> exists err,
        run_command (local_command json_path url) None w
        = (w', Ok (0%Z, out, err)).
Proof.
  rewrite run_kda_local_run.
  destruct (run_command (local_command json_path url) None w)
    as [w1 [[[rc out1] err]|e|c]] eqn:Hrun.
  - destruct (Z.eqb_spec rc 0) as [->|Hrc].
    + split; [intros [= <- <-]; eauto|]. by intros (? & [= <- <- _]).
    + split; [discriminate|]. by intros (? & [= _ Hz _ _]).
  - split; [discriminate|]. by intros (? & ?).
  - split; [discriminate|]. by intros (? & ?).
Qed.

(** ** The paths and the clean-up of [main] *)

Lemma dir_prefix_join_inj (cwd a b : pystr) :
  starts_with slash a = false -> starts_with slash b = false ->
  os_path_join cwd a = os_path_join cwd b -> a = b.
Proof.
  intros Ha Hb. rewrite !os_path_join_relative by done.
  apply app_inv_head.
Qed.

(** Lines 176-178.  Whatever the working directory, the template and the
    two temporary files are three different paths: writing the substituted
    file or the generated file never goes to the template. *)
Theorem main_paths_distinct (cwd : pystr) :
  template_path_in cwd <> substituted_yaml_path_in cwd
  /\ template_path_in cwd <> json_file_in cwd
  /\ substituted_yaml_path_in cwd <> json_file_in cwd.
Proof.
  unfold template_path_in, substituted_yaml_path_in, json_file_in.
  repeat split; intros Heq; by apply dir_prefix_join_inj in Heq.
Qed.

(** Lines 223-231.  When both temporary files are there and may be removed,
    the clean-up removes these two files, changes nothing else and prints
    nothing. *)
Theorem temporary_files_removed (json_file substituted_yaml_path : pystr)
    (w : world) :
  json_file <> substituted_yaml_path ->
  is_Some (fs_files (w_fs w) !! json_file) ->
  is_Some (fs_files (w_fs w) !! substituted_yaml_path) ->
  json_file ∉ fs_denied (w_fs w) ->
  substituted_yaml_path ∉ fs_denied (w_fs w) ->
  remove_temporary_files json_file substituted_yaml_path w
  = (without_file substituted_yaml_path (without_file json_file w), Ok tt).
Proof.
  intros Hne [cj Hj] [cs Hs] Hdj Hds.
  rewrite remove_temporary_files_run. unfold os_remove at 1.
  rewrite Hj, bool_decide_eq_false_2 by done.
  fold (without_file json_file w). unfold os_remove, without_file at 1.
  cbn [w_fs set_fs fs_files fs_denied fs_dirs].
  rewrite lookup_delete_ne, Hs by done.
  by rewrite bool_decide_eq_false_2 by done.
Qed.

Lemma temporary_files_removed_witness :
  remove_temporary_files (str "/work/t.json") (str "/work/s.ktpl")
    (with_file (str "/work/t.json") (str "{}")
       (with_file (str "/work/s.ktpl") (str "x") fresh_world))
  = (without_file (str "/work/s.ktpl")
       (without_file (str "/work/t.json")
          (with_file (str "/work/t.json") (str "{}")
             (with_file (str "/work/s.ktpl") (str "x") fresh_world))), Ok tt).
Proof.
  apply temporary_files_removed.
  - discriminate.
  - apply (bool_decide_eq_true_1 (is_Some _)). vm_compute. reflexivity.
  - apply (bool_decide_eq_true_1 (is_Some _)). vm_compute. reflexivity.
  - apply (bool_decide_eq_false_1 (_ ∈ _)). vm_compute. reflexivity.
  - apply (bool_decide_eq_false_1 (_ ∈ _)). vm_compute. reflexivity.
Defined.

(** Lines 223-231.  When the first removal succeeds and the second cannot
    (the substituted file is not there, or may not be removed), the generated
    file is gone, the one warning is printed, and the clean-up returns
    normally. *)
Theorem second_removal_failure (json_file substituted_yaml_path : pystr)
    (w : world) :
  is_Some (fs_files (w_fs w) !! json_file) ->
  json_file ∉ fs_denied (w_fs w) ->
  fs_files (w_fs w) !! substituted_yaml_path = None
  \/ substituted_yaml_path ∈ fs_denied (w_fs w) ->
  exists e,
    remove_temporary_files json_file substituted_yaml_path w
    = (print_line (WarnCleanup e) (without_file json_file w), Ok tt).
Proof.
  intros [cj Hj] Hdj Hs.
  rewrite remove_temporary_files_run. unfold os_remove at 1.
  rewrite Hj, bool_decide_eq_false_2 by done.
  fold (without_file json_file w).
  destruct (os_remove substituted_yaml_path (without_file json_file w))
    as [w2 [[]|e|c]] eqn:Hrm.
  - exfalso. unfold os_remove, without_file in Hrm.
    cbn [w_fs set_fs fs_files fs_denied fs_dirs] in Hrm.
    destruct (delete json_file (fs_files (w_fs w)) !! substituted_yaml_path)
      as [cs|] eqn:Hlook; [|by case_match].
    destruct Hs as [Hnone|Hden].
    + apply lookup_delete_Some in Hlook as [_ Hlook]. congruence.
    + by rewrite bool_decide_eq_true_2 in Hrm by done.
  - exists e. apply os_remove_world in Hrm as (_ & Hsame & _).
    by rewrite (Hsame e eq_refl).
  - apply os_remove_world in Hrm as (Hno & _). by destruct (Hno c).
Qed.

Lemma second_removal_failure_witness :
  exists e,
    remove_temporary_files (str "/work/t.json") (str "/work/s.ktpl")
      (with_file (str "/work/t.json") (str "{}") fresh_world)
    = (print_line (WarnCleanup e)
         (without_file (str "/work/t.json")
            (with_file (str "/work/t.json") (str "{}") fresh_world)), Ok tt).
Proof.
  apply second_removal_failure.
  - apply (bool_decide_eq_true_1 (is_Some _)). vm_compute. reflexivity.
  - apply (bool_decide_eq_false_1 (_ ∈ _)). vm_compute. reflexivity.
  - left. vm_compute. reflexivity.
Defined.

Lemma os_remove_Ok (path : pystr) (w w1 : world) :
  os_remove path w = (w1, Ok tt) -> w1 = without_file path w.
Proof.
  unfold os_remove, without_file.
  destruct (fs_files (w_fs w) !! path).
  - destruct (bool_decide (path ∈ fs_denied (w_fs w))); [done|].
    by intros [= <-].
  - by destruct (bool_decide (path ∈ fs_dirs (w_fs w))).
Qed.

(** Lines 223-231.  A clean-up that prints no warning has removed both
    temporary files. *)
Theorem quiet_cleanup_removed_both (json_file substituted_yaml_path : pystr)
    (w w' : world) (r : result unit) :
  remove_temporary_files json_file substituted_yaml_path w = (w', r) ->
  w_stderr w' = w_stderr w ->
  r = Ok tt
  /\ fs_files (w_fs w') !! json_file = None
  /\ fs_files (w_fs w') !! substituted_yaml_path = None.
Proof.
  rewrite remove_temporary_files_run. intros Hrun Hquiet.
  assert (forall (msg : message) (w0 : world),
            w_stderr w0 = w_stderr w ->
            w_stderr (print_line msg w0) <> w_stderr w) as Hloud.
  { intros msg w0 Hw0. rewrite print_line_stderr, Hw0. intros Heq.
    apply (f_equal length) in Heq. rewrite length_app in Heq.
    simpl in Heq. lia. }
  destruct (os_remove json_file w) as [w1 [[]|e|c]] eqn:Hrm1.
  - pose proof (os_remove_world _ _ _ _ Hrm1) as (_ & _ & He1).
    destruct (os_remove substituted_yaml_path w1) as [w2 [[]|e|c]] eqn:Hrm2.
    + injection Hrun as <- <-. split; [done|].
      apply os_remove_Ok in Hrm1 as ->. apply os_remove_Ok in Hrm2 as ->.
      cbn [without_file w_fs set_fs fs_files].
      split; [|apply lookup_delete_eq].
      apply lookup_delete_None. right. apply lookup_delete_eq.
    + injection Hrun as <- <-.
      pose proof (os_remove_world _ _ _ _ Hrm2) as (_ & _ & He2).
      destruct (Hloud (WarnCleanup e) w2); congruence.
    + apply os_remove_world in Hrm2 as (Hno & _). by destruct (Hno c).
  - injection Hrun as <- <-.
    pose proof (os_remove_world _ _ _ _ Hrm1) as (_ & _ & He1).
    destruct (Hloud (WarnCleanup e) w1); congruence.
  - apply os_remove_world in Hrm1 as (Hno & _). by destruct (Hno c).
Qed.

Lemma quiet_cleanup_removed_both_witness :
  let w := with_file (str "/work/t.json") (str "{}")
             (with_file (str "/work/s.ktpl") (str "x") fresh_world) in
  let end_ := remove_temporary_files (str "/work/t.json")
                (str "/work/s.ktpl") w in
  end_.2 = Ok tt
  /\ fs_files (w_fs end_.1) !! str "/work/t.json" = None
  /\ fs_files (w_fs end_.1) !! str "/work/s.ktpl" = None.
Proof.
  intros w end_.
  apply (quiet_cleanup_removed_both (str "/work/t.json") (str "/work/s.ktpl")
           w end_.1 end_.2).
  - apply surjective_pairing.
  - vm_compute. reflexivity.
Defined.

(** Lines 172-231.  The clean-up is the last statement of [main] and is
    under no [finally]: when [main] does not return normally (an exit or an
    exception), it ends in the world in which the pipeline stopped, and no
    temporary file has been removed by the script. *)
Theorem aborted_run_skips_cleanup {db : UnicodeDB} {sh : Shell}
    {dec : JsonDecoder} (args : arguments) (w w' : world) (r : result unit) :
  main args w = (w', r) ->
  r <> Ok tt ->
  run_pipeline args (template_path_in (w_cwd w))
    (substituted_yaml_path_in (w_cwd w)) (json_file_in (w_cwd w)) w
  = (w', r).
Proof.
  rewrite main_run. intros Hmain Hr.
  destruct (run_pipeline args (template_path_in (w_cwd w))
              (substituted_yaml_path_in (w_cwd w)) (json_file_in (w_cwd w)) w)
    as [w1 [[]|e|c]]; [|done..].
  destruct (remove_temporary_files_Ok (json_file_in (w_cwd w))
              (substituted_yaml_path_in (w_cwd w)) w1) as [w2 Hrm].
  rewrite Hrm in Hmain. by injection Hmain as _ <-.
Qed.

Lemma aborted_run_skips_cleanup_witness :
  let end_ := main (db := ascii_only) (sh := failing_shell)
                (dec := decoder_of [] JNull) default_arguments
                template_world in
  run_pipeline (db := ascii_only) (sh := failing_shell)
    (dec := decoder_of [] JNull) default_arguments
    (template_path_in (w_cwd template_world))
    (substituted_yaml_path_in (w_cwd template_world))
    (json_file_in (w_cwd template_world)) template_world
  = (end_.1, end_.2).
Proof.
  intros end_.
  apply (aborted_run_skips_cleanup (db := ascii_only) (sh := failing_shell)
           (dec := decoder_of [] JNull) default_arguments template_world
           end_.1 end_.2).
  - apply surjective_pairing.
  - vm_compute. discriminate.
Defined.
